(** * FixedNFOParser: a shallow embedding of [nfo_parser_fixed.py]

    The parser reads a metadata sidecar file that is nominally XML and
    fills one dictionary, trying four extraction strategies in turn.
    Python values are modelled as they occur in the code: a [str] is a
    list of Unicode code points, a float is a binary64 number of the
    kernel, the record is a dictionary with string keys, and the
    strategies run in a monad that threads the shared dictionary, the
    log and the scratch files through raised and caught exceptions.
    The last part covers what the parser takes from [media_collector.py],
    the configuration lookup, and two helpers its callers apply to the
    record. *)

From Stdlib Require Import ZArith NArith List String Ascii Bool Lia.
From Stdlib Require Import Floats Uint63.
From stdpp Require Import base option list gmap strings.

Set Warnings "-register-all".

Open Scope N_scope.

(** ** Python strings *)

(** A Python [str] is a sequence of code points. *)
Abbreviation pystr := (list N).

Module PyStr.

(** An ASCII literal of the source, as a [str]. *)
Fixpoint lit (s : string) : pystr :=
  match s with
  | EmptyString => []
  | String a s' => N_of_ascii a :: lit s'
  end.

Definition eqb (s t : pystr) : bool := bool_decide (s = t).

(** [str.isspace] on one character, which is also what [\s] matches in
    a [str] pattern. *)
Definition isspace (c : N) : bool :=
  ((0x09 <=? c) && (c <=? 0x0D)) || ((0x1C <=? c) && (c <=? 0x20))
  || (c =? 0x85) || (c =? 0xA0) || (c =? 0x1680)
  || ((0x2000 <=? c) && (c <=? 0x200A))
  || (c =? 0x2028) || (c =? 0x2029) || (c =? 0x202F) || (c =? 0x205F)
  || (c =? 0x3000).

Fixpoint lstrip (s : pystr) : pystr :=
  match s with
  | c :: s' => if isspace c then lstrip s' else s
  | [] => []
  end.

Definition rstrip (s : pystr) : pystr := rev (lstrip (rev s)).

(** [s.strip()] *)
Definition strip (s : pystr) : pystr := rstrip (lstrip s).

(** Truth value of a [str]: non-empty. *)
Definition truthy (s : pystr) : bool :=
  match s with [] => false | _ => true end.

Definition contains (c : N) (s : pystr) : bool := existsb (N.eqb c) s.

End PyStr.

(** ** Regular expressions

    The patterns of the source are sequences of single characters,
    starred character classes (greedy or lazy), one capture group and
    one negative lookahead.  The matcher backtracks the way [re] does:
    a greedy star tries the longest run first, a lazy one the shortest. *)

Module Re.

Inductive atom :=
| Ch (p : N -> bool)            (* one character of the class *)
| StarG (p : N -> bool)         (* class*   *)
| StarL (p : N -> bool)         (* class*?  *)
| Open                          (* (  of group 1 *)
| Close                         (* )  of group 1 *)
| NotAhead (q : pystr -> bool). (* (?!...) on the text that follows *)

Definition regex := list atom.

(** Where group 1 opened and closed, each as the text still to read. *)
Definition marks : Type := option pystr * option pystr.

(** Match [r] at the start of [s]; the result is the marks and the text
    left after the match. *)
Fixpoint m (r : regex) (s : pystr) (g : marks) {struct r} : option (marks * pystr) :=
  match r with
  | [] => Some (g, s)
  | Ch p :: r' =>
      match s with
      | c :: s' => if p c then m r' s' g else None
      | [] => None
      end
  | StarG p :: r' =>
      (fix star (s : pystr) : option (marks * pystr) :=
         match s with
         | c :: s' =>
             if p c then
               match star s' with
               | Some x => Some x
               | None => m r' s g
               end
             else m r' s g
         | [] => m r' s g
         end) s
  | StarL p :: r' =>
      (fix star (s : pystr) : option (marks * pystr) :=
         match m r' s g with
         | Some x => Some x
         | None =>
             match s with
             | c :: s' => if p c then star s' else None
             | [] => None
             end
         end) s
  | Open :: r' => m r' s (Some s, snd g)
  | Close :: r' => m r' s (fst g, Some s)
  | NotAhead q :: r' => if q s then None else m r' s g
  end.

Definition match_at (r : regex) (s : pystr) : option (marks * pystr) :=
  m r s (None, None).

Definition matches_at (r : regex) (s : pystr) : bool :=
  match match_at r s with Some _ => true | None => false end.

(** [match.group(1)]: the text between the two marks. *)
Definition group1 (g : marks) : pystr :=
  match g with
  | (Some a, Some b) => take (length a - length b)%nat a
  | _ => []
  end.

(** Number of characters a match starting at [s] and leaving [rest] read. *)
Definition consumed (s rest : pystr) : nat := (length s - length rest)%nat.

(** [re.search(r, s)], reduced to group 1 of the leftmost match. *)
Fixpoint search (r : regex) (s : pystr) : option pystr :=
  match match_at r s with
  | Some (g, _) => Some (group1 g)
  | None =>
      match s with
      | _ :: s' => search r s'
      | [] => None
      end
  end.

(** [re.findall(r, s)] for a pattern with one group: group 1 of every
    match, left to right, the matches not overlapping.  [skip] counts the
    characters of the current match still to pass. *)
Fixpoint findall_from (r : regex) (skip : nat) (s : pystr) : list pystr :=
  match skip with
  | S k =>
      match s with
      | _ :: s' => findall_from r k s'
      | [] => []
      end
  | O =>
      match match_at r s with
      | Some (g, rest) =>
          group1 g ::
            match s with
            | _ :: s' => findall_from r (pred (consumed s rest)) s'
            | [] => []
            end
      | None =>
          match s with
          | _ :: s' => findall_from r O s'
          | [] => []
          end
      end
  end.

Definition findall (r : regex) (s : pystr) : list pystr := findall_from r O s.

(** [re.sub(r, repl, s)] for the patterns of the source, none of which
    matches the empty string. *)
Fixpoint sub_from (r : regex) (repl : pystr) (skip : nat) (s : pystr) : pystr :=
  match skip with
  | S k =>
      match s with
      | _ :: s' => sub_from r repl k s'
      | [] => []
      end
  | O =>
      match s with
      | c :: s' =>
          match match_at r s with
          | Some (_, rest) =>
              match consumed s rest with
              | O => c :: sub_from r repl O s'
              | S k => repl ++ sub_from r repl k s'
              end
          | None => c :: sub_from r repl O s'
          end
      | [] => []
      end
  end.

Definition sub (r : regex) (repl : pystr) (s : pystr) : pystr :=
  sub_from r repl O s.

(** Character classes. *)
Definition only (c : N) : N -> bool := N.eqb c.
Definition except (c : N) : N -> bool := fun x => negb (N.eqb c x).
(** [.] under DOTALL, and without it. *)
Definition any_dotall : N -> bool := fun _ => true.
Definition any_line : N -> bool := except 0x0A.

(** A literal character of a [str] pattern compiled with IGNORECASE: the
    letter in either case, and the four letters outside ASCII that
    Unicode case rules add (U+0130 and U+0131 for i, U+017F for s,
    U+212A for k). *)
Definition is_ci (p : N) : N -> bool := fun c =>
  let lo := if (0x41 <=? p) && (p <=? 0x5A) then p + 32 else p in
  (c =? lo)
  || ((0x61 <=? lo) && (lo <=? 0x7A) && (c =? lo - 32))
  || ((lo =? 0x69) && ((c =? 0x130) || (c =? 0x131)))
  || ((lo =? 0x73) && (c =? 0x17F))
  || ((lo =? 0x6B) && (c =? 0x212A)).

Definition lits (s : string) : regex := map (fun c => Ch (only c)) (PyStr.lit s).
Definition lits_ci (s : string) : regex := map (fun c => Ch (is_ci c)) (PyStr.lit s).

End Re.


(** ** Values, records and the library tables *)

(** The values a record field holds: a [str], a float, a list of [str],
    or [None] (which only the minidom strategy can store). *)
Inductive value :=
| VStr (s : pystr)
| VFloat (f : float)
| VList (l : list pystr)
| VNone.

(** A record is a Python [dict] with [str] keys. *)
Abbreviation dict := (gmap string value).

(** [d.get(k, dflt)] *)
Definition dict_get (d : dict) (k : string) (dflt : value) : value :=
  default dflt (d !! k).

(** The exceptions that occur. *)
Inductive exn :=
| ParseError          (* xml.etree / expat: not well-formed *)
| OSError             (* open, tempfile, write *)
| AttributeError      (* a method of [str] called on another value *)
| TypeError           (* [>] or [len] on a value without it *)
| ValueError          (* [float] of text that is no number *)
| PlainException.     (* [raise Exception(...)] of the minidom strategy *)

(** What the Python runtime supplies and the source only calls: the
    parts of the Unicode database and of [html] and [float] that are
    tables rather than code. *)
Record Library := {
  (** [html._charref.sub(_replace_charref, s)], for text with an [&];
      [None] when it raises, as it does with [ValueError] on a decimal
      character reference longer than [int] converts *)
  charref_sub : pystr -> option pystr;
  (** [unicodedata.category(c)] is Cf, Cs, Co or Cn *)
  ucd_format_or_unassigned : N -> bool;
  (** [c] is a decimal digit (category Nd) outside ASCII *)
  ucd_digit_beyond_ascii : N -> bool;
  (** [float(s)] for text that is not a plain decimal numeral of at
      most fifteen digits; [None] is [ValueError] *)
  float_other : pystr -> option float;
}.

Module PyFloat.

Definition digit (c : N) : option Z :=
  if (0x30 <=? c) && (c <=? 0x39) then Some (Z.of_N (c - 0x30)) else None.

(** Reads a run of digits: its value on top of [acc], how many digits
    were read, and the rest. *)
Fixpoint digits (s : pystr) (acc : Z) (n : nat) : Z * nat * pystr :=
  match s with
  | c :: s' =>
      match digit c with
      | Some d => digits s' (10 * acc + d)%Z (S n)
      | None => (acc, n, s)
      end
  | [] => (acc, n, [])
  end.

Definition of_Z (z : Z) : float := PrimFloat.of_uint63 (Uint63.of_Z z).

(** [sign digits [. digits]] with at least one and at most fifteen
    digits: the mantissa and the power of ten are exact binary64
    numbers, so their quotient is the correctly rounded value. *)
Definition plain_decimal (s : pystr) : option float :=
  let '(neg, s1) :=
    match s with
    | 0x2D :: t => (true, t)
    | 0x2B :: t => (false, t)
    | _ => (false, s)
    end in
  let '(i, ni, s2) := digits s1 0%Z O in
  let '(mant, nf, s3) :=
    match s2 with
    | 0x2E :: t => let '(v, n, r) := digits t i O in (v, n, r)
    | _ => (i, O, s2)
    end in
  match s3 with
  | [] =>
      if ((1 <=? ni + nf) && (ni + nf <=? 15))%nat then
        let q := PrimFloat.div (of_Z mant) (of_Z (10 ^ Z.of_nat nf)) in
        Some (if neg then PrimFloat.opp q else q)
      else None
  | _ => None
  end.

(** [float(s)], [None] for [ValueError]. *)
Definition of_str (L : Library) (s : pystr) : option float :=
  match plain_decimal s with
  | Some f => Some f
  | None => float_other L s
  end.

(** [x > 0] on floats. *)
Definition positive (f : float) : bool := PrimFloat.ltb 0%float f.

End PyFloat.

(** ** Text cleaning and the patterns of the source *)

Section Text.
Context (L : Library).

(** [html.unescape]: text without [&] is returned as it is; [None]
    when it raises. *)
Definition html_unescape (s : pystr) : option pystr :=
  if negb (PyStr.contains 0x26 s) then Some s else charref_sub L s.

(** [unicodedata.category(char)[0] == 'C']: the controls of Cc, and
    what the database classifies as Cf, Cs, Co, Cn. *)
Definition category_C (c : N) : bool :=
  (c <=? 0x1F) || ((0x7F <=? c) && (c <=? 0x9F)) || ucd_format_or_unassigned L c.

(** r'\s+' *)
Definition re_spaces : Re.regex := [Re.Ch PyStr.isspace; Re.StarG PyStr.isspace].

(** [_clean_text].  Of the calls inside its [try] only [html.unescape]
    can raise on a [str]; the handler then returns the text it was
    given, stripped and otherwise as it is. *)
Definition _clean_text (text : pystr) : pystr :=
  if negb (PyStr.truthy text) then []
  else
    match html_unescape text with
    | Some unescaped =>
        let text := List.filter (fun c => negb (category_C c)) unescaped in
        let text := Re.sub re_spaces (PyStr.lit " ") text in
        PyStr.strip text
    | None => PyStr.strip text                 (* except Exception *)
    end.

(** r'<tag[^>]*>(.*?)</tag>'; [dotall] says whether [.] crosses lines.
    Used with IGNORECASE throughout. *)
Definition re_tag (tag : string) (dotall : bool) : Re.regex :=
  Re.lits_ci ("<" ++ tag)
  ++ [Re.StarG (Re.except 0x3E); Re.Ch (Re.only 0x3E); Re.Open;
      Re.StarL (if dotall then Re.any_dotall else Re.any_line); Re.Close]
  ++ Re.lits_ci ("</" ++ tag ++ ">").

(** r'<actor[^>]*>.*?<name[^>]*>(.*?)</name>.*?</actor>' with DOTALL,
    case-sensitive. *)
Definition re_actor : Re.regex :=
  Re.lits "<actor"
  ++ [Re.StarG (Re.except 0x3E); Re.Ch (Re.only 0x3E); Re.StarL Re.any_dotall]
  ++ Re.lits "<name"
  ++ [Re.StarG (Re.except 0x3E); Re.Ch (Re.only 0x3E); Re.Open;
      Re.StarL Re.any_dotall; Re.Close]
  ++ Re.lits "</name>"
  ++ [Re.StarL Re.any_dotall]
  ++ Re.lits "</actor>".

(** [_extract_field] *)
Definition _extract_field (content : pystr) (pattern : Re.regex) : pystr :=
  match Re.search pattern content with
  | Some g => _clean_text g
  | None => []
  end.

(** r'[\x00-\x08\x0B\x0C\x0E-\x1F]' *)
Definition xml_invalid (c : N) : bool :=
  (c <=? 0x08) || (c =? 0x0B) || (c =? 0x0C) || ((0x0E <=? c) && (c <=? 0x1F)).

(** [\d] in a [str] pattern *)
Definition re_digit (c : N) : bool :=
  ((0x30 <=? c) && (c <=? 0x39)) || ucd_digit_beyond_ascii L c.

(** [0-9a-fA-F] *)
Definition re_hex (c : N) : bool :=
  ((0x30 <=? c) && (c <=? 0x39)) || ((0x61 <=? c) && (c <=? 0x66))
  || ((0x41 <=? c) && (c <=? 0x46)).

(** (?:amp|lt|gt|quot|apos|#\d+|#x[0-9a-fA-F]+); *)
Definition entity_follows (s : pystr) : bool :=
  existsb (fun alt => Re.matches_at alt s)
    [ Re.lits "amp;"; Re.lits "lt;"; Re.lits "gt;"; Re.lits "quot;"; Re.lits "apos;";
      [Re.Ch (Re.only 0x23); Re.Ch re_digit; Re.StarG re_digit; Re.Ch (Re.only 0x3B)];
      [Re.Ch (Re.only 0x23); Re.Ch (Re.only 0x78); Re.Ch re_hex; Re.StarG re_hex;
       Re.Ch (Re.only 0x3B)] ].

(** [_fix_xml_issues] *)
Definition _fix_xml_issues (content : pystr) : pystr :=
  let content := Re.sub [Re.Ch xml_invalid] [] content in
  Re.sub [Re.Ch (Re.only 0x26); Re.NotAhead entity_follows] (PyStr.lit "&amp;") content.

End Text.

(** Library tables that answer nothing beyond ASCII and the plain
    decimals: enough for text whose characters are letters, digits and
    punctuation and in which no [&] starts a character reference. *)
Definition plain_library : Library :=
  {| charref_sub := fun s => Some s;
     ucd_format_or_unassigned := fun _ => false;
     ucd_digit_beyond_ascii := fun _ => false;
     float_other := fun _ => None |}.


(** ** Parsed documents *)

(** An [xml.etree] element: tag, the text before its first child
    ([None] when there is none), and the child elements. *)
Inductive Element := Elem (tag : pystr) (text : option pystr) (children : list Element).

Definition elem_tag (e : Element) : pystr := let 'Elem t _ _ := e in t.
Definition elem_text (e : Element) : option pystr := let 'Elem _ x _ := e in x.
Definition elem_children (e : Element) : list Element := let 'Elem _ _ c := e in c.

Definition has_tag (tag : string) (e : Element) : bool :=
  PyStr.eqb (elem_tag e) (PyStr.lit tag).

(** [e.find(tag)] and [e.findall(tag)] for a plain tag name: the direct
    children with that tag. *)
Definition elem_find (e : Element) (tag : string) : option Element :=
  List.find (has_tag tag) (elem_children e).
Definition elem_findall (e : Element) (tag : string) : list Element :=
  List.filter (has_tag tag) (elem_children e).

(** [elem is not None and elem.text], giving the text when it holds. *)
Definition present_text (o : option Element) : option pystr :=
  match o with
  | Some e =>
      match elem_text e with
      | Some t => if PyStr.truthy t then Some t else None
      | None => None
      end
  | None => None
  end.

(** A minidom node: an element with its child nodes, or a node that
    carries character data (text, CDATA, comment). *)
Inductive dnode :=
| DElement (tagName : pystr) (childNodes : list dnode)
| DData (data : pystr).

(** [getElementsByTagName(name)] below [n], [n] included: document order. *)
Fixpoint getElementsByTagName (name : string) (n : dnode) : list dnode :=
  match n with
  | DElement t kids =>
      (if PyStr.eqb t (PyStr.lit name) then [n] else [])
      ++ (fix below (ks : list dnode) : list dnode :=
            match ks with
            | [] => []
            | k :: ks' => getElementsByTagName name k ++ below ks'
            end) kids
  | DData _ => []
  end.

Definition firstChild (n : dnode) : option dnode :=
  match n with
  | DElement _ (k :: _) => Some k
  | _ => None
  end.

(** [node.nodeValue]: the data of a character-data node, [None] for an
    element. *)
Definition nodeValue (n : dnode) : value :=
  match n with
  | DData d => VStr d
  | DElement _ _ => VNone
  end.

(** ** The world outside the parser

    What the file system and the XML libraries answer.  A result is
    [inl e] when the call raises [e]. *)
Record World := {
  (** [open(path, 'r', encoding='utf-8', errors='ignore').read()] *)
  read_text : string -> exn + pystr;
  (** [ET.parse(path).getroot()] *)
  et_parse : string -> exn + Element;
  (** [minidom.parse(path)], as its document element *)
  minidom_parse : string -> exn + dnode;
  (** [tempfile.NamedTemporaryFile(..., delete=False)]: the name of the
      file it creates *)
  scratch_create : exn + string;
  (** whether writing the text to the scratch file and closing it works *)
  scratch_write : pystr -> bool;
  (** [ET.parse(temp_file_path).getroot()] for a scratch file holding
      the text *)
  scratch_parse : pystr -> exn + Element;
}.

(** ** Effects *)

Inductive event :=
| LogStart                         (* info: parsing starts *)
| LogTry (i : nat)                 (* debug: trying method i *)
| LogSuccess (i : nat)             (* info: method i succeeded *)
| LogFailed (i : nat) (e : exn)    (* warning: method i failed *)
| LogAllFailed                     (* warning: every method failed *)
| LogRecovered                     (* info: the repaired text parsed *)
| LogExtractError (e : exn).       (* error: extraction failed *)

(** The dictionary bound to [data] in [parse_nfo], the log, and the
    scratch files on disk.  Every strategy receives the one dictionary
    object and returns that same object, so it lives in the state and
    survives an exception. *)
Record state := {
  st_data : dict;
  st_log : list event;
  st_files : gset string;
}.

(** A reference to the dictionary of the state. *)
Inductive ref := data_ref.

Definition M (A : Type) : Type := state -> state * (exn + A).

Definition ret {A} (a : A) : M A := fun s => (s, inr a).
Definition raise {A} (e : exn) : M A := fun s => (s, inl e).
Definition bind {A B} (m : M A) (k : A -> M B) : M B := fun s =>
  match m s with
  | (s', inr a) => k a s'
  | (s', inl e) => (s', inl e)
  end.
(** [try: m  except Exception as e: h e] *)
Definition try_except {A} (m : M A) (h : exn -> M A) : M A := fun s =>
  match m s with
  | (s', inr a) => (s', inr a)
  | (s', inl e) => h e s'
  end.
(** [try: m  finally: f] *)
Definition try_finally {A} (m : M A) (f : M unit) : M A := fun s =>
  match m s with
  | (s', r) =>
      match f s' with
      | (s'', inr _) => (s'', r)
      | (s'', inl e) => (s'', inl e)
      end
  end.
Definition lift {A} (r : exn + A) : M A := fun s => (s, r).

Notation "'let*' x ':=' m 'in' k" := (bind m (fun x => k))
  (at level 10, x name, m at level 100, k at level 200).
Notation "m ';;;' k" := (bind m (fun _ => k))
  (at level 100, k at level 200, right associativity).

(** The same for code that only raises. *)
Definition ebind {A B} (r : exn + A) (k : A -> exn + B) : exn + B :=
  match r with
  | inr a => k a
  | inl e => inl e
  end.
Notation "'let?' x ':=' m 'in' k" := (ebind m (fun x => k))
  (at level 10, x name, m at level 100, k at level 200).

Definition log (e : event) : M unit := fun s =>
  ({| st_data := st_data s; st_log := st_log s ++ [e]; st_files := st_files s |}, inr tt).
Definition deref (r : ref) : M dict := fun s => (s, inr (st_data s)).
Definition assign (d : dict) : M unit := fun s =>
  ({| st_data := d; st_log := st_log s; st_files := st_files s |}, inr tt).
(** In-place update of the dictionary. *)
Definition update (f : dict -> dict) : M unit := fun s =>
  ({| st_data := f (st_data s); st_log := st_log s; st_files := st_files s |}, inr tt).
Definition add_file (p : string) : M unit := fun s =>
  ({| st_data := st_data s; st_log := st_log s; st_files := {[p]} ∪ st_files s |}, inr tt).
(** [os.unlink(p)] of a scratch file *)
Definition unlink (p : string) : M unit := fun s =>
  ({| st_data := st_data s; st_log := st_log s; st_files := st_files s ∖ {[p]} |}, inr tt).

(** ** The parser *)

Module Lit.
(** '未知' *)
Definition unknown : pystr := [0x672A; 0x77E5].
(** '暂无该部分信息' *)
Definition no_plot : pystr := [0x6682; 0x65E0; 0x8BE5; 0x90E8; 0x5206; 0x4FE1; 0x606F].
End Lit.

(** [__init__]: [self.defaults] is the dictionary the configuration has
    under [nfo_parsing.defaults], or the literal one when it has none. *)
Definition init_defaults (configured : option dict) : dict :=
  default
    (list_to_map
       [ ("rating", VFloat 0%float); ("studio", VStr Lit.unknown);
         ("director", VStr Lit.unknown); ("plot", VStr Lit.no_plot) ])
    configured.

(** The [data] dictionary [parse_nfo] starts from. *)
Definition initial_data (defaults : dict) : dict :=
  list_to_map
    [ ("title", VStr []);
      ("actors", VList []);
      ("release_date", VStr []);
      ("rating", dict_get defaults "rating" (VFloat 0%float));
      ("plot", dict_get defaults "plot" (VStr Lit.no_plot));
      ("genre", VList []);
      ("studio", dict_get defaults "studio" (VStr Lit.unknown));
      ("director", dict_get defaults "director" (VStr Lit.unknown));
      ("maker", dict_get defaults "maker" (VStr Lit.unknown));
      ("publisher", dict_get defaults "publisher" (VStr Lit.unknown));
      ("series", VStr []) ].

(** Operations of [_has_meaningful_data] on values of any type. *)
Definition py_strip (v : value) : exn + pystr :=
  match v with
  | VStr s => inr (PyStr.strip s)
  | _ => inl AttributeError
  end.

Definition py_gt_zero (v : value) : exn + bool :=
  match v with
  | VFloat f => inr (PyFloat.positive f)
  | _ => inl TypeError
  end.

Definition py_len (v : value) : exn + nat :=
  match v with
  | VList l => inr (length l)
  | VStr s => inr (length s)
  | _ => inl TypeError
  end.

(** [s != v] for a [str] [s]: only another [str] can be equal to it. *)
Definition str_ne (s : pystr) (v : value) : bool :=
  match v with
  | VStr t => negb (PyStr.eqb s t)
  | _ => true
  end.

(** [_has_meaningful_data]: the list is built in full, left to right,
    before [any] looks at it, so the first element that raises decides. *)
Definition _has_meaningful_data (defaults data : dict) : exn + bool :=
  let? title := py_strip (dict_get data "title" (VStr [])) in
  let? studio := py_strip (dict_get data "studio" (VStr [])) in
  let? director := py_strip (dict_get data "director" (VStr [])) in
  let? plot := py_strip (dict_get data "plot" (VStr [])) in
  let? rating := py_gt_zero (dict_get data "rating" (VFloat 0%float)) in
  let? actors := py_len (dict_get data "actors" (VList [])) in
  let? genre := py_len (dict_get data "genre" (VList [])) in
  let? release_date := py_strip (dict_get data "release_date" (VStr [])) in
  inr (existsb id
         [ PyStr.truthy title;
           str_ne studio (VStr Lit.unknown);
           str_ne director (VStr Lit.unknown);
           str_ne plot (dict_get defaults "plot" (VStr []));
           rating;
           (0 <? actors)%nat;
           (0 <? genre)%nat;
           PyStr.truthy release_date ]).

Section Parser.
Context (L : Library) (W : World) (defaults : dict).

(** The [fields] table of [_extract_data_safe]: field name, tag name. *)
Definition fields : list (string * string) :=
  [ ("title", "title"); ("originaltitle", "originaltitle"); ("rating", "rating");
    ("studio", "studio"); ("director", "director"); ("maker", "maker");
    ("publisher", "publisher"); ("plot", "plot"); ("series", "series");
    ("runtime", "runtime") ]%string.

(** One round of the loop over [fields]. *)
Definition extract_field (root : Element) (data : dict) (ft : string * string) : dict :=
  let '(field_name, tag_name) := ft in
  match present_text (elem_find root tag_name) with
  | Some text =>
      let value := _clean_text L text in
      if PyStr.truthy value then
        if String.eqb field_name "rating" then
          match PyFloat.of_str L value with
          | Some f => <[field_name := VFloat f]> data
          | None => data                       (* except ValueError: pass *)
          end
        else <[field_name := VStr value]> data
      else data
  | None => data
  end.

(** The loop over the genre elements, appending to the list. *)
Definition collect_genre (elems : list Element) : list pystr :=
  fold_left
    (fun acc genre_elem =>
       match present_text (Some genre_elem) with
       | Some text =>
           let genre := _clean_text L text in
           if PyStr.truthy genre then acc ++ [genre] else acc
       | None => acc
       end)
    elems [].

(** The loop over the actor elements. *)
Definition collect_actors (elems : list Element) : list pystr :=
  fold_left
    (fun acc actor_elem =>
       match present_text (elem_find actor_elem "name") with
       | Some text =>
           let actor := _clean_text L text in
           if PyStr.truthy actor then acc ++ [actor] else acc
       | None => acc
       end)
    elems [].

(** The loop over the date fields, left at the first one that is there. *)
Fixpoint extract_date (root : Element) (date_fields : list string) (data : dict) : dict :=
  match date_fields with
  | [] => data
  | date_field :: rest =>
      match present_text (elem_find root date_field) with
      | Some text => <["release_date" := VStr (_clean_text L text)]> data
      | None => extract_date root rest data
      end
  end.

(** What [_extract_data_safe] does to the dictionary. *)
Definition extract_data (root : Element) (data : dict) : dict :=
  let data := fold_left (extract_field root) fields data in
  let data := <["genre" := VList (collect_genre (elem_findall root "genre"))]> data in
  let data := <["actors" := VList (collect_actors (elem_findall root "actor"))]> data in
  extract_date root ["releasedate"; "premiered"; "release"]%string data.

(** [_extract_data_safe]: every step of the body works on values of the
    types the tree has, so the handler is there but is not reached. *)
Definition _extract_data_safe (root : Element) : M ref :=
  try_except
    (update (extract_data root) ;;; ret data_ref)
    (fun e => log (LogExtractError e) ;;; ret data_ref).

(** Strategy 1 *)
Definition _parse_standard_xml (nfo_path : string) : M ref :=
  let* root := lift (et_parse W nfo_path) in
  _extract_data_safe root.

(** Strategy 2.  The scratch file exists from its creation on; the
    [try ... finally] that removes it starts after the text was written. *)
Definition _parse_with_recovery (nfo_path : string) : M ref :=
  let* content := lift (read_text W nfo_path) in
  let content := _fix_xml_issues L content in
  let* temp_file_path := lift (scratch_create W) in
  add_file temp_file_path ;;;
  (if scratch_write W content then ret tt else raise OSError) ;;;
  try_finally
    (let* root := lift (scratch_parse W content) in
     let* result := _extract_data_safe root in
     log LogRecovered ;;;
     ret result)
    (unlink temp_file_path).

(** What [_parse_line_by_line] does to the dictionary. *)
Definition line_by_line (content : pystr) (data : dict) : dict :=
  let data := <["title" := VStr (_extract_field L content (re_tag "title" true))]> data in
  let data := <["studio" := VStr (_extract_field L content (re_tag "studio" true))]> data in
  let data := <["director" := VStr (_extract_field L content (re_tag "director" true))]> data in
  let data := <["plot" := VStr (_extract_field L content (re_tag "plot" true))]> data in
  let data := <["release_date" := VStr (_extract_field L content (re_tag "releasedate" true))]> data in
  let data := <["series" := VStr (_extract_field L content (re_tag "series" true))]> data in
  let data := <["runtime" := VStr (_extract_field L content (re_tag "runtime" true))]> data in
  let rating_text := _extract_field L content (re_tag "rating" true) in
  let data :=
    if PyStr.truthy rating_text then
      match PyFloat.of_str L rating_text with
      | Some f => <["rating" := VFloat f]> data
      | None => data                           (* except ValueError: pass *)
      end
    else data in
  let genre_matches := Re.findall (re_tag "genre" false) content in
  let data :=
    <["genre" := VList (map (_clean_text L)
                          (List.filter (fun g => PyStr.truthy (PyStr.strip g)) genre_matches))]> data in
  let actor_matches := Re.findall re_actor content in
  <["actors" := VList (map (_clean_text L)
                         (List.filter (fun a => PyStr.truthy (PyStr.strip a)) actor_matches))]> data.

(** Strategy 3 *)
Definition _parse_line_by_line (nfo_path : string) : M ref :=
  let* content := lift (read_text W nfo_path) in
  update (line_by_line content) ;;;
  ret data_ref.

(** One loop of [_parse_with_minidom]: the first element of that name
    that has a child gives its first child's [nodeValue]. *)
Definition minidom_field (doc : dnode) (name : string) (data : dict) : dict :=
  match List.find (fun elem => bool_decide (is_Some (firstChild elem)))
                  (getElementsByTagName name doc) with
  | Some elem =>
      match firstChild elem with
      | Some child => <[name := nodeValue child]> data
      | None => data
      end
  | None => data
  end.

(** Strategy 4: whatever is raised inside is raised again as a plain
    [Exception]. *)
Definition _parse_with_minidom (nfo_path : string) : M ref :=
  try_except
    (let* doc := lift (minidom_parse W nfo_path) in
     update (minidom_field doc "title") ;;;
     update (minidom_field doc "studio") ;;;
     update (minidom_field doc "series") ;;;
     ret data_ref)
    (fun _ => raise PlainException).

(** One round of the loop of [parse_nfo]: [Some result] when the round
    returns from [parse_nfo], [None] when the loop goes on. *)
Definition attempt (i : nat) (parser : M ref) : M (option ref) :=
  try_except
    (log (LogTry i) ;;;
     let* result := parser in
     let* d := deref result in
     if bool_decide (d = ∅) then ret None        (* [result and ...]: empty dict *)
     else
       let* ok := lift (_has_meaningful_data defaults d) in
       if ok then log (LogSuccess i) ;;; ret (Some result)
       else ret None)
    (fun e => log (LogFailed i e) ;;; ret None).

(** The loop [for i, parser in enumerate(parsers, 1)]. *)
Fixpoint try_parsers (i : nat) (parsers : list (M ref)) : M (option ref) :=
  match parsers with
  | [] => ret None
  | parser :: rest =>
      let* r := attempt i parser in
      match r with
      | Some result => ret (Some result)
      | None => try_parsers (S i) rest
      end
  end.

Definition parsers (nfo_path : string) : list (M ref) :=
  [ _parse_standard_xml nfo_path;
    _parse_with_recovery nfo_path;
    _parse_line_by_line nfo_path;
    _parse_with_minidom nfo_path ].

(** [parse_nfo] of a parser whose [self.defaults] is the mapping
    [defaults]; [FixedNFOParser.parse_nfo] below is the method for any
    [self.defaults]. *)
Definition parse_nfo (nfo_path : string) : M dict :=
  log LogStart ;;;
  assign (initial_data defaults) ;;;
  let* r := try_parsers 1 (parsers nfo_path) in
  match r with
  | Some result => deref result
  | None => log LogAllFailed ;;; deref data_ref
  end.

End Parser.

(** The state a call starts in: nothing logged, no scratch file, and a
    dictionary that [parse_nfo] replaces before anything reads it. *)
Definition start : state := {| st_data := ∅; st_log := []; st_files := ∅ |}.


(** ** What the theorems speak of *)

Definition by_loop (e : event) : bool :=
  match e with
  | LogRecovered | LogExtractError _ => false
  | _ => true
  end.
Definition loop_log (l : list event) : list event := List.filter by_loop l.

(** A strategy is quiet when it leaves the loop's log alone. *)
Definition quiet {A} (m : M A) : Prop :=
  forall s, loop_log (st_log (fst (m s))) = loop_log (st_log s).

(** What a strategy does to the dictionary, run on its own. *)
Definition effect {A} (m : M A) (d : dict) : dict :=
  st_data (fst (m {| st_data := d; st_log := []; st_files := ∅ |})).

(** A strategy is local when that does not depend on the log or on the
    scratch files. *)
Definition local {A} (m : M A) : Prop :=
  forall s, st_data (fst (m s)) = effect m (st_data s).

(** The log of the loop from round [i] on with [n] strategies left, and
    whether a round returned. *)
Inductive chain_trace : nat -> nat -> list event -> bool -> Prop :=
| trace_exhausted i : chain_trace i 0 [] false
| trace_accepted i n : chain_trace i (S n) [LogTry i; LogSuccess i] true
| trace_rejected i n t b :
    chain_trace (S i) n t b -> chain_trace i (S n) (LogTry i :: t) b
| trace_failed i n e t b :
    chain_trace (S i) n t b -> chain_trace i (S n) (LogTry i :: LogFailed i e :: t) b.


Definition returned (r : option ref) : bool :=
  match r with Some _ => true | None => false end.

(** ** The chain of strategies, as the claim words it *)

(** A strategy run by itself on the record [d]: nothing logged and no
    scratch file before it. *)
Definition alone {A} (m : M A) (d : dict) : state * (exn + A) :=
  m {| st_data := d; st_log := []; st_files := ∅ |}.

(** A strategy is uniform when what it returns or raises does not depend
    on the log or on the scratch files either. *)
Definition uniform {A} (m : M A) : Prop :=
  forall s, snd (m s) = snd (alone m (st_data s)).

(** How a round ends. *)
Inductive verdict :=
| Accepted               (* the result passes the check: the round returns it *)
| Rejected               (* the strategy returned, its result does not pass *)
| Failed (e : exn).      (* the strategy or the check raised *)

(** The round of the strategy [m] on the record [d]: the strategy runs,
    and its result, which is the record as it has left it, passes when
    it is not empty and the check says yes. *)
Definition round_verdict (defaults : dict) (m : M ref) (d : dict) : verdict :=
  match snd (alone m d) with
  | inl e => Failed e
  | inr _ =>
      if bool_decide (effect m d = ∅) then Rejected
      else
        match _has_meaningful_data defaults (effect m d) with
        | inr true => Accepted
        | inr false => Rejected
        | inl e => Failed e
        end
  end.

(** What the loop logs in round [i]. *)
Definition round_log (i : nat) (v : verdict) : list event :=
  match v with
  | Accepted => [LogTry i; LogSuccess i]
  | Rejected => [LogTry i]
  | Failed e => [LogTry i; LogFailed i e]
  end.

(** The rounds from number [i] on, for the strategies [ms] in their
    order, each on the record the one before it has left: the first
    whose result passes ends them, and no later strategy runs.  What
    comes out is the loop's log, the number of the strategy accepted,
    if any, and the record. *)
Fixpoint rounds (defaults : dict) (i : nat) (ms : list (M ref)) (d : dict)
  : list event * option nat * dict :=
  match ms with
  | [] => ([], None, d)
  | m :: rest =>
      match round_verdict defaults m d with
      | Accepted => (round_log i Accepted, Some i, effect m d)
      | v =>
          let '(t, accepted, d') := rounds defaults (S i) rest (effect m d) in
          (round_log i v ++ t, accepted, d')
      end
  end.

(** The numbers of the strategies a log shows as tried. *)
Definition tried (l : list event) : list nat :=
  omap (fun e => match e with LogTry i => Some i | _ => None end) l.


(** ** Sample files *)

Module Samples.
Import PyStr.

(** A world with one sidecar file whose text needs no repair, so that
    the scratch copy holds the same text and parses to the same tree. *)
Definition one_file (text : pystr) (tree : exn + Element) (dom : exn + dnode) : World :=
  {| read_text := fun _ => inr text;
     et_parse := fun _ => tree;
     minidom_parse := fun _ => dom;
     scratch_create := inr "/tmp/tmp0.nfo"%string;
     scratch_write := fun _ => true;
     scratch_parse := fun t => if PyStr.eqb t text then tree else inl ParseError |}.

(** No file at the path: every library call raises. *)
Definition missing : World :=
  {| read_text := fun _ => inl OSError;
     et_parse := fun _ => inl OSError;
     minidom_parse := fun _ => inl OSError;
     scratch_create := inr "/tmp/tmp0.nfo"%string;
     scratch_write := fun _ => true;
     scratch_parse := fun _ => inl ParseError |}.

(** An empty file: readable, and no XML parser accepts it. *)
Definition empty : World := one_file [] (inl ParseError) (inl ParseError).

(** <movie><maker>M</maker></movie> *)
Definition maker_text : pystr := lit "<movie><maker>M</maker></movie>".
Definition maker_tree : Element :=
  Elem (lit "movie") None [Elem (lit "maker") (Some (lit "M")) []].
Definition maker_dom : dnode :=
  DElement (lit "movie") [DElement (lit "maker") [DData (lit "M")]].
Definition maker : World := one_file maker_text (inr maker_tree) (inr maker_dom).

(** A file cut off before its root element closes:
    <x><studio>未知</studio><director>未知</director><plot>暂无该部分信息</plot><series>S</series> *)
Definition cut_off_text : pystr :=
  lit "<x><studio>" ++ Lit.unknown ++ lit "</studio><director>" ++ Lit.unknown
  ++ lit "</director><plot>" ++ Lit.no_plot ++ lit "</plot><series>S</series>".
Definition cut_off : World := one_file cut_off_text (inl ParseError) (inl ParseError).

(** <movie><title>Film</title><rating>8.25</rating>
    <actor><name>A</name></actor><actor/><actor><name>B</name></actor>
    <actor><name>C</name></actor></movie>, on one line *)
Definition film_text : pystr :=
  lit "<movie><title>Film</title><rating>8.25</rating><actor><name>A</name></actor><actor/><actor><name>B</name></actor><actor><name>C</name></actor></movie>".
Definition actor_elem (name : string) : Element :=
  Elem (lit "actor") None [Elem (lit "name") (Some (lit name)) []].
Definition film_tree : Element :=
  Elem (lit "movie") None
    [ Elem (lit "title") (Some (lit "Film")) [];
      Elem (lit "rating") (Some (lit "8.25")) [];
      actor_elem "A"; Elem (lit "actor") None []; actor_elem "B"; actor_elem "C" ].
Definition actor_dom (name : string) : dnode :=
  DElement (lit "actor") [DElement (lit "name") [DData (lit name)]].
Definition film_dom : dnode :=
  DElement (lit "movie")
    [ DElement (lit "title") [DData (lit "Film")];
      DElement (lit "rating") [DData (lit "8.25")];
      actor_dom "A"; DElement (lit "actor") []; actor_dom "B"; actor_dom "C" ].
Definition film : World := one_file film_text (inr film_tree) (inr film_dom).

(** A file cut off after its title: <movie><title>A</title> *)
Definition title_only_text : pystr := lit "<movie><title>A</title>".
Definition title_only : World := one_file title_only_text (inl ParseError) (inl ParseError).

(** A well-formed file whose fields sit one level below the root, the
    title closed by a tag with a blank in it and its text starting with
    a TAB:
    <movie><x><studio>未知</studio><director>未知</director>
    <plot>暂无该部分信息</plot><title>\tA</title ></x></movie>, on one line *)
Definition nested_text : pystr :=
  lit "<movie><x><studio>" ++ Lit.unknown ++ lit "</studio><director>" ++ Lit.unknown
  ++ lit "</director><plot>" ++ Lit.no_plot ++ lit "</plot><title>" ++ [0x09]
  ++ lit "A</title ></x></movie>".
Definition nested_tree : Element :=
  Elem (lit "movie") None
    [ Elem (lit "x") None
        [ Elem (lit "studio") (Some Lit.unknown) [];
          Elem (lit "director") (Some Lit.unknown) [];
          Elem (lit "plot") (Some Lit.no_plot) [];
          Elem (lit "title") (Some ([0x09] ++ lit "A")) [] ] ].
Definition nested_dom : dnode :=
  DElement (lit "movie")
    [ DElement (lit "x")
        [ DElement (lit "studio") [DData Lit.unknown];
          DElement (lit "director") [DData Lit.unknown];
          DElement (lit "plot") [DData Lit.no_plot];
          DElement (lit "title") [DData ([0x09] ++ lit "A")] ] ].
Definition nested : World := one_file nested_text (inr nested_tree) (inr nested_dom).

(** A file with a bare ampersand, <movie><title>A & B</title></movie>:
    no XML parser accepts it, and the repaired text
    <movie><title>A &amp; B</title></movie> parses. *)
Definition ampersand_text : pystr := lit "<movie><title>A & B</title></movie>".
Definition ampersand_repaired : pystr := lit "<movie><title>A &amp; B</title></movie>".
Definition ampersand_tree : Element :=
  Elem (lit "movie") None [Elem (lit "title") (Some (lit "A & B")) []].
Definition ampersand : World :=
  {| read_text := fun _ => inr ampersand_text;
     et_parse := fun _ => inl ParseError;
     minidom_parse := fun _ => inl ParseError;
     scratch_create := inr "/tmp/tmp0.nfo"%string;
     scratch_write := fun _ => true;
     scratch_parse := fun t =>
       if PyStr.eqb t ampersand_repaired then inr ampersand_tree else inl ParseError |}.

(** The same file on a volume with no space left: the scratch file is
    created, writing the text to it fails. *)
Definition no_space : World :=
  {| read_text := read_text ampersand;
     et_parse := et_parse ampersand;
     minidom_parse := minidom_parse ampersand;
     scratch_create := scratch_create ampersand;
     scratch_write := fun _ => false;
     scratch_parse := scratch_parse ampersand |}.




End Samples.

(** The outcome of a run, field by field. *)
Definition outcome_field (r : state * (exn + dict)) (k : string) : option value :=
  match snd r with
  | inr d => d !! k
  | inl _ => None
  end.

(** The exception a run ended with, if any. *)
Definition raised {A} (r : state * (exn + A)) : option exn :=
  match snd r with
  | inr _ => None
  | inl e => Some e
  end.

(** ** The acceptance test as specified *)

Module Config.
Import PyStr.

(** A configuration with defaults of its own. *)
Definition custom : dict :=
  list_to_map
    [ ("rating", VFloat 0%float); ("studio", VStr (lit "Unknown"));
      ("director", VStr (lit "Unknown")); ("plot", VStr (lit "N/A")) ].

(** A configuration that gives studio and director and leaves plot out. *)
Definition plot_left_out : dict :=
  list_to_map [ ("studio", VStr Lit.unknown); ("director", VStr Lit.unknown) ].

End Config.

Definition str_of (v : value) : pystr :=
  match v with VStr s => s | _ => [] end.

(** The acceptance test in the words of the claim: every comparison
    with a default is with the value the configuration supplies, which
    is the value the record was initialised with. *)
Definition meaningful_as_claimed (defaults data : dict) : bool :=
  let configured k fallback := str_of (dict_get defaults k (VStr fallback)) in
  let field k := str_of (dict_get data k (VStr [])) in
  PyStr.truthy (PyStr.strip (field "title"%string))
  || negb (PyStr.eqb (field "studio"%string) (configured "studio"%string Lit.unknown))
  || negb (PyStr.eqb (field "director"%string) (configured "director"%string Lit.unknown))
  || negb (PyStr.eqb (field "plot"%string) (configured "plot"%string Lit.no_plot))
  || match dict_get data "rating" (VFloat 0%float) with
     | VFloat f => PyFloat.positive f
     | _ => false
     end
  || match dict_get data "actors" (VList []) with
     | VList l => (0 <? length l)%nat
     | _ => false
     end
  || match dict_get data "genre" (VList []) with
     | VList l => (0 <? length l)%nat
     | _ => false
     end
  || PyStr.truthy (PyStr.strip (field "release_date"%string)).

(** ** Actors as a document lists them *)



(** How a text lists an actor, for the pattern of strategy 3. *)





(** The record has values of the types the check expects. *)
Definition typed (d : dict) : Prop :=
  (exists s, d !! "title"%string = Some (VStr s))
  /\ (exists s, d !! "studio"%string = Some (VStr s))
  /\ (exists s, d !! "director"%string = Some (VStr s))
  /\ (exists s, d !! "plot"%string = Some (VStr s))
  /\ (exists f, d !! "rating"%string = Some (VFloat f))
  /\ (exists l, d !! "actors"%string = Some (VList l))
  /\ (exists l, d !! "genre"%string = Some (VList l))
  /\ (exists s, d !! "release_date"%string = Some (VStr s)).

(** The configured defaults that reach the check are a float for the
    rating and strings for the others, where they are given. *)
Definition defaults_typed (defaults : dict) : Prop :=
  (exists f, dict_get defaults "rating" (VFloat 0%float) = VFloat f)
  /\ (exists s, dict_get defaults "plot" (VStr Lit.no_plot) = VStr s)
  /\ (exists s, dict_get defaults "studio" (VStr Lit.unknown) = VStr s)
  /\ (exists s, dict_get defaults "director" (VStr Lit.unknown) = VStr s).


(** ** What the further properties speak of *)

(** The state with more lines in its log. *)
Definition with_log (s : state) (l : list event) : state :=
  {| st_data := st_data s; st_log := st_log s ++ l; st_files := st_files s |}.


(** The keys strategy 3 assigns. *)
Definition line_keys : list string :=
  [ "title"; "studio"; "director"; "plot"; "release_date"; "series"; "runtime";
    "rating"; "genre"; "actors" ]%string.


(** The keys strategy 4 assigns. *)
Definition minidom_keys : list string := ["title"; "studio"; "series"]%string.


(** Text in which no two neighbours are both white space. *)
Inductive spaced : pystr -> Prop :=
| spaced_nil : spaced []
| spaced_one c : spaced [c]
| spaced_cons a b t :
    PyStr.isspace a = false \/ PyStr.isspace b = false ->
    spaced (b :: t) -> spaced (a :: b :: t).


Section RepairedText.
Context (L : Library).

(** r'&(?!...)' *)
Definition re_bare_ampersand : Re.regex :=
  [Re.Ch (Re.only 0x26); Re.NotAhead (entity_follows L)].

(** The second substitution of [_fix_xml_issues]. *)
Definition escape (s : pystr) : pystr :=
  Re.sub re_bare_ampersand (PyStr.lit "&amp;") s.

(** Every ampersand of the text starts a reference. *)
Fixpoint references_only (s : pystr) : bool :=
  match s with
  | [] => true
  | c :: t => (if 0x26 =? c then entity_follows L t else true) && references_only t
  end.

End RepairedText.

(** The atoms of the patterns that may follow an ampersand: classes
    that do not hold the ampersand itself. *)
Inductive plain_atom : Re.atom -> Prop :=
| plain_ch p : p 0x26 = false -> plain_atom (Re.Ch p)
| plain_star p : p 0x26 = false -> plain_atom (Re.StarG p).


(** ** The configuration ([media_collector.py], class [Config]) *)

(** What [yaml.safe_load] or [get_default_config] gives: mappings with
    string keys, and the scalars and lists at their leaves. *)
Inductive config :=
| Dict (entries : gmap string config)
| Str (s : pystr)
| Num (f : float)
| Bool (b : bool)
| Seq (items : list pystr)
| Null.

Module PyConfig.

(** [key_path.split('.')]: never the empty list. *)
Fixpoint split_dots (key_path : string) : list string :=
  match key_path with
  | EmptyString => [EmptyString]
  | String c rest =>
      if Ascii.eqb c "."%char then EmptyString :: split_dots rest
      else
        match split_dots rest with
        | key :: keys => String c key :: keys
        | [] => [String c EmptyString]
        end
  end.

(** The loop of [get]: [None] where it returns the default. *)
Fixpoint walk (keys : list string) (value : config) : option config :=
  match keys with
  | [] => Some value
  | key :: rest =>
      match value with
      | Dict entries =>                        (* isinstance(value, dict) *)
          match entries !! key with            (* key in value *)
          | Some v => walk rest v
          | None => None
          end
      | _ => None
      end
  end.

(** [Config.get] *)
Definition get (cfg : config) (key_path : string) (dflt : config) : config :=
  default dflt (walk (split_dots key_path) cfg).

(** [get_default_config] *)
Definition get_default_config : config :=
  Dict (list_to_map
    [ ("basic", Dict (list_to_map
         [ ("recursive", Bool true);
           ("encoding", Str (PyStr.lit "utf-8"));
           ("datetime_format", Str (PyStr.lit "%Y-%m-%d %H:%M:%S")) ]));
      ("paths", Dict (list_to_map
         [ ("source_directories", Seq [PyStr.lit "test_media"]);
           ("output_directory", Str (PyStr.lit "obsidian_output")) ]));
      ("file_patterns", Dict (list_to_map
         [ ("video_extensions",
            Seq (map PyStr.lit [".mp4"; ".mkv"; ".avi"; ".mov"; ".wmv"]%string));
           ("strm_extensions", Seq [PyStr.lit ".strm"]);
           ("image_extensions", Seq (map PyStr.lit [".jpg"; ".jpeg"; ".png"; ".webp"]%string));
           ("poster_keywords", Seq (map PyStr.lit ["poster"; "cover"; "thumb"]%string));
           ("fanart_keywords", Seq (map PyStr.lit ["fanart"; "backdrop"; "background"]%string));
           ("trailer_keywords", Seq (map PyStr.lit ["trailer"; "preview"; "sample"]%string)) ]));
      ("nfo_parsing", Dict (list_to_map
         [ ("defaults", Dict (list_to_map
              [ ("rating", Num 0%float);
                ("studio", Str Lit.unknown);
                ("director", Str Lit.unknown);
                ("plot", Str Lit.no_plot) ])) ]));
      ("advanced", Dict (list_to_map [ ("log_level", Str (PyStr.lit "INFO")) ])) ]).

(** No ['.'] in a key. *)
Fixpoint plain_key (key : string) : bool :=
  match key with
  | EmptyString => true
  | String c rest => negb (Ascii.eqb c "."%char) && plain_key rest
  end.

End PyConfig.

(** The literal dictionary [FixedNFOParser.__init__] passes as default. *)
Definition literal_defaults : config :=
  Dict (list_to_map
    [ ("rating", Num 0%float); ("studio", Str Lit.unknown);
      ("director", Str Lit.unknown); ("plot", Str Lit.no_plot) ]).

(** [self.defaults] as [FixedNFOParser.__init__] sets it. *)
Definition parser_defaults (cfg : config) : config :=
  PyConfig.get cfg "nfo_parsing.defaults" literal_defaults.

(** ** The parser, whatever the configuration holds *)

(** What [self.defaults] is: a mapping, or an object with no [get]
    ([None], a [str], a number, a list), which is what [Config.get]
    returns when the configuration has that under
    [nfo_parsing.defaults]. *)
Inductive pyobject :=
| Mapping (d : dict)
| NotMapping.

(** A value of the configuration as a value of the record: a number is
    the float of its value, [True] and [False] being 1 and 0.  A mapping
    has no counterpart among the values of a record. *)
Definition value_of (c : config) : option value :=
  match c with
  | Str s => Some (VStr s)
  | Num f => Some (VFloat f)
  | Bool b => Some (VFloat (if b then 1%float else 0%float))
  | Seq items => Some (VList items)
  | Null => Some VNone
  | Dict _ => None
  end.

(** The configured defaults as the parser holds them; [None] for
    defaults with a mapping among their values. *)
Definition defaults_of (c : config) : option pyobject :=
  match c with
  | Dict entries =>
      if bool_decide (map_Forall (fun _ v => is_Some (value_of v)) entries)
      then Some (Mapping (omap value_of entries))
      else None
  | _ => Some NotMapping
  end.

(** nfo_parsing: {defaults: null}, as YAML gives it for a [defaults:]
    line with nothing under it *)
Definition null_defaults_config : config :=
  Dict {[ "nfo_parsing"%string := Dict {[ "defaults"%string := Null ]} ]}.

Module FixedNFOParser.

(** [__init__]: [self.defaults] *)
Definition __init__ (cfg : config) : option pyobject :=
  defaults_of (parser_defaults cfg).

(** [parse_nfo] of any parser.  The dictionary display of lines 27 to 39
    calls [self.defaults.get] after the logging call of line 24 and
    outside every [try]: with defaults that are no mapping it raises
    [AttributeError] there, whatever the path.  With a mapping the call
    is [parse_nfo] above. *)
Definition parse_nfo (L : Library) (W : World) (self_defaults : pyobject)
    (nfo_path : string) : M dict :=
  match self_defaults with
  | Mapping defaults => parse_nfo L W defaults nfo_path
  | NotMapping => log LogStart ;;; raise AttributeError
  end.

End FixedNFOParser.


(** ** Callers of the parser ([media_collector.py]) *)

Section YearOfDate.
Context (L : Library).



End YearOfDate.

Module Markdown.

(** [s.replace(old, new)] for a one-character [old]. *)
Definition replace_char (old : N) (new : pystr) (s : pystr) : pystr :=
  flat_map (fun c => if c =? old then new else [c]) s.

(** [actor.replace('\\', '\\\\').replace('"', '\\"')] *)
Definition escape (actor : pystr) : pystr :=
  replace_char 0x22 [0x5C; 0x22] (replace_char 0x5C [0x5C; 0x5C] actor).

(** ["\n".join(lines)] *)
Fixpoint join_lines (lines : list pystr) : pystr :=
  match lines with
  | [] => []
  | [line] => line
  | line :: rest => line ++ [0x0A] ++ join_lines rest
  end.

(** [MarkdownGenerator._format_actors] *)
Definition _format_actors (actors : list pystr) : pystr :=
  match actors with
  | [] => PyStr.lit "  - []"
  | _ => join_lines (map (fun actor => PyStr.lit "  - - - " ++ escape actor) actors)
  end.

(** Reading an escaped name back: a backslash stands for the character
    after it. *)
Fixpoint unescape (s : pystr) : pystr :=
  match s with
  | [] => []
  | c :: rest =>
      if c =? 0x5C then
        match rest with
        | x :: rest' => x :: unescape rest'
        | [] => [c]
        end
      else c :: unescape rest
  end.

End Markdown.


(** * Properties *)

(** ** Running the monad *)

Ltac run :=
  unfold attempt, try_except, try_finally, bind, ret, raise, lift, log, deref,
    assign, update, add_file, unlink in *; simpl in *.

(** The events [parse_nfo] itself logs, as opposed to those a strategy
    logs on the way. *)

(** ** The embedding on sample text *)

Module ReTests.
Import Re.

Example search_title :
  search (lits_ci "<title" ++ [StarG (except 0x3E); Ch (only 0x3E); Open; StarL any_dotall; Close]
            ++ lits_ci "</title>")
         (PyStr.lit "<a><TITLE id='1'>Ab c</Title><title>second</title>")
  = Some (PyStr.lit "Ab c").
Proof. vm_compute. reflexivity. Qed.

Example sub_spaces :
  sub [Ch PyStr.isspace; StarG PyStr.isspace] (PyStr.lit " ") (PyStr.lit "a   b c  ")
  = PyStr.lit "a b c ".
Proof. vm_compute. reflexivity. Qed.

End ReTests.

Module TextTests.

Example clean_tab : _clean_text plain_library (PyStr.lit " A" ++ [0x09] ++ PyStr.lit "B  C ")
                    = PyStr.lit "AB C".
Proof. vm_compute. reflexivity. Qed.

Example float_7 : PyFloat.of_str plain_library (PyStr.lit "7") = Some 7%float.
Proof. vm_compute. reflexivity. Qed.

Example float_825 : PyFloat.of_str plain_library (PyStr.lit "8.25") = Some 8.25%float.
Proof. vm_compute. reflexivity. Qed.

Example float_word : PyFloat.of_str plain_library (PyStr.lit "not-a-number") = None.
Proof. vm_compute. reflexivity. Qed.

Example fix_amp :
  _fix_xml_issues plain_library (PyStr.lit "a & b &amp; c &#12; &#x; d" ++ [0x01])
  = PyStr.lit "a &amp; b &amp; c &#12; &amp;#x; d".
Proof. vm_compute. reflexivity. Qed.

Example findall_genre :
  Re.findall (re_tag "genre" false)
    (PyStr.lit "<genre>A</genre><GENRE x='1'>B" ++ [0x0A] ++ PyStr.lit "</genre><genre>C</genre>")
  = [PyStr.lit "A"; PyStr.lit "C"].
Proof. vm_compute. reflexivity. Qed.

Example findall_actor :
  Re.findall re_actor
    (PyStr.lit "<actor><name>A</name></actor><actor/><actor><name>B</name><role>r</role></actor>")
  = [PyStr.lit "A"; PyStr.lit "B"].
Proof. vm_compute. reflexivity. Qed.

End TextTests.

(** ** The loop of [parse_nfo] *)

Section Chain.
Context (defaults : dict).

Lemma attempt_returns i parser s :
  exists s' r, attempt defaults i parser s = (s', inr r).
Proof.
  run. destruct (parser _) as [s1 [e | r]]; simpl; eauto.
  case_bool_decide; eauto.
  destruct (_has_meaningful_data defaults (st_data s1)) as [e | [|]]; simpl; eauto.
Qed.

Lemma try_parsers_returns ps : forall i s,
  exists s' r, try_parsers defaults i ps s = (s', inr r).
Proof.
  induction ps as [| p ps IH]; intros i s; simpl.
  - eexists _, _. reflexivity.
  - unfold bind at 1. destruct (attempt_returns i p s) as (s1 & r & ->).
    destruct r; [eexists _, _; reflexivity | apply IH].
Qed.

Lemma loop_log_app l1 l2 : loop_log (l1 ++ l2) = loop_log l1 ++ loop_log l2.
Proof. apply List.filter_app. Qed.

(** One round: what it logs, and what holds when it returns. *)
Lemma attempt_round i parser s :
  quiet parser ->
  exists s' r,
    attempt defaults i parser s = (s', inr r)
    /\ st_data s' = st_data (fst (parser
         {| st_data := st_data s; st_log := st_log s ++ [LogTry i]; st_files := st_files s |}))
    /\ match r with
       | Some _ =>
           loop_log (st_log s') = loop_log (st_log s) ++ [LogTry i; LogSuccess i]
           /\ st_data s' <> ∅
           /\ _has_meaningful_data defaults (st_data s') = inr true
       | None =>
           loop_log (st_log s') = loop_log (st_log s) ++ [LogTry i]
           \/ exists e, loop_log (st_log s') = loop_log (st_log s) ++ [LogTry i; LogFailed i e]
       end.
Proof.
  intros Hq. run.
  specialize (Hq {| st_data := st_data s; st_log := st_log s ++ [LogTry i]; st_files := st_files s |}).
  simpl in Hq. rewrite loop_log_app in Hq. simpl in Hq.
  destruct (parser _) as [s1 [e | r]]; simpl in *.
  - eexists _, _. split; [reflexivity |]. simpl. split; [reflexivity |].
    right. exists e. rewrite loop_log_app, Hq, <- app_assoc. reflexivity.
  - case_bool_decide as Hd.
    + eexists _, _. split; [reflexivity |]. simpl. split; [reflexivity |]. left. exact Hq.
    + destruct (_has_meaningful_data defaults (st_data s1)) as [e | [|]] eqn:Hm; simpl.
      * eexists _, _. split; [reflexivity |]. simpl. split; [reflexivity |].
        right. exists e. rewrite loop_log_app, Hq, <- app_assoc. reflexivity.
      * eexists _, _. split; [reflexivity |]. simpl. split; [reflexivity |].
        split; [| split; assumption].
        rewrite loop_log_app, Hq, <- app_assoc. reflexivity.
      * eexists _, _. split; [reflexivity |]. simpl. split; [reflexivity |]. left. exact Hq.
Qed.


(** The whole loop: its log, the dictionary it leaves, and what holds
    of the round that returned. *)
Lemma try_parsers_spec ps :
  Forall quiet ps -> Forall local ps ->
  forall i s, exists s' r t k,
    try_parsers defaults i ps s = (s', inr r)
    /\ loop_log (st_log s') = loop_log (st_log s) ++ t
    /\ chain_trace i (length ps) t (returned r)
    /\ (k <= length ps)%nat
    /\ st_data s' = fold_left (fun d m => effect m d) (take k ps) (st_data s)
    /\ match r with
       | Some _ =>
           (1 <= k)%nat /\ st_data s' <> ∅
           /\ _has_meaningful_data defaults (st_data s') = inr true
       | None => k = length ps
       end.
Proof.
  induction ps as [| p ps IH]; intros Hq Hl i s.
  - exists s, None, [], O. simpl. rewrite app_nil_r.
    repeat split; try reflexivity; constructor.
  - inversion Hq as [| ? ? Hqp Hqps]; subst. inversion Hl as [| ? ? Hlp Hlps]; subst.
    destruct (attempt_round i p s Hqp) as (s1 & r1 & Hrun & Hdata & Hr1).
    rewrite Hlp in Hdata. simpl in Hdata.
    simpl. unfold bind at 1. rewrite Hrun.
    destruct r1 as [res |].
    + destruct Hr1 as (Hlog & Hne & Hm).
      exists s1, (Some res), [LogTry i; LogSuccess i], 1%nat. simpl.
      repeat split; try assumption; try lia. constructor.
    + destruct (IH Hqps Hlps (S i) s1) as (s' & r & t & k & Hrun' & Hlog' & Htr & Hk & Hd & Hr).
      destruct Hr1 as [Hlog | [e Hlog]].
      * exists s', r, (LogTry i :: t), (S k). simpl.
        repeat split; try assumption; try lia.
        -- rewrite Hlog', Hlog, <- app_assoc. reflexivity.
        -- apply trace_rejected. exact Htr.
        -- rewrite Hd, Hdata. reflexivity.
        -- destruct r; [destruct Hr as (? & ? & ?); repeat split; try assumption; lia | lia].
      * exists s', r, (LogTry i :: LogFailed i e :: t), (S k). simpl.
        repeat split; try assumption; try lia.
        -- rewrite Hlog', Hlog, <- app_assoc. reflexivity.
        -- apply trace_failed. exact Htr.
        -- rewrite Hd, Hdata. reflexivity.
        -- destruct r; [destruct Hr as (? & ? & ?); repeat split; try assumption; lia | lia].
Qed.

End Chain.

(** ** The four strategies are quiet and local *)

Section Strategies.
Context (L : Library) (W : World).

Lemma extract_safe_run root s :
  _extract_data_safe L root s
  = ({| st_data := extract_data L root (st_data s); st_log := st_log s;
        st_files := st_files s |}, inr data_ref).
Proof. reflexivity. Qed.

Lemma standard_xml_run p s :
  _parse_standard_xml L W p s
  = match et_parse W p with
    | inr root =>
        ({| st_data := extract_data L root (st_data s); st_log := st_log s;
            st_files := st_files s |}, inr data_ref)
    | inl e => (s, inl e)
    end.
Proof. unfold _parse_standard_xml. run. destruct (et_parse W p); reflexivity. Qed.

Lemma quiet_standard_xml p : quiet (_parse_standard_xml L W p).
Proof. intros s. rewrite standard_xml_run. destruct (et_parse W p); reflexivity. Qed.

Lemma local_standard_xml p : local (_parse_standard_xml L W p).
Proof.
  intros s. unfold effect. rewrite !standard_xml_run. destruct (et_parse W p); reflexivity.
Qed.

Lemma quiet_recovery p : quiet (_parse_with_recovery L W p).
Proof.
  intros s. unfold _parse_with_recovery, _extract_data_safe. run.
  destruct (read_text W p) as [e | c]; simpl; [reflexivity |].
  destruct (scratch_create W) as [e | t]; simpl; [reflexivity |].
  destruct (scratch_write W _); simpl; [| reflexivity].
  destruct (scratch_parse W _) as [e | root]; simpl; [reflexivity |].
  rewrite loop_log_app. simpl. apply app_nil_r.
Qed.

Lemma local_recovery p : local (_parse_with_recovery L W p).
Proof.
  intros s. unfold effect, _parse_with_recovery, _extract_data_safe. run.
  destruct (read_text W p) as [e | c]; simpl; [reflexivity |].
  destruct (scratch_create W) as [e | t]; simpl; [reflexivity |].
  destruct (scratch_write W _); simpl; [| reflexivity].
  destruct (scratch_parse W _) as [e | root]; reflexivity.
Qed.

Lemma quiet_line_by_line p : quiet (_parse_line_by_line L W p).
Proof.
  intros s. unfold _parse_line_by_line. run. destruct (read_text W p); reflexivity.
Qed.

Lemma local_line_by_line p : local (_parse_line_by_line L W p).
Proof.
  intros s. unfold effect, _parse_line_by_line. run. destruct (read_text W p); reflexivity.
Qed.

Lemma quiet_minidom p : quiet (_parse_with_minidom W p).
Proof.
  intros s. unfold _parse_with_minidom. run. destruct (minidom_parse W p); reflexivity.
Qed.

Lemma local_minidom p : local (_parse_with_minidom W p).
Proof.
  intros s. unfold effect, _parse_with_minidom. run. destruct (minidom_parse W p); reflexivity.
Qed.

Lemma parsers_quiet p : Forall quiet (parsers L W p).
Proof.
  repeat constructor;
    [apply quiet_standard_xml | apply quiet_recovery | apply quiet_line_by_line | apply quiet_minidom].
Qed.

Lemma parsers_local p : Forall local (parsers L W p).
Proof.
  repeat constructor;
    [apply local_standard_xml | apply local_recovery | apply local_line_by_line | apply local_minidom].
Qed.

Lemma uniform_standard_xml p : uniform (_parse_standard_xml L W p).
Proof.
  intros s. unfold alone. rewrite !standard_xml_run. destruct (et_parse W p); reflexivity.
Qed.

Lemma uniform_recovery p : uniform (_parse_with_recovery L W p).
Proof.
  intros s. unfold alone, _parse_with_recovery, _extract_data_safe. run.
  destruct (read_text W p) as [e | c]; simpl; [reflexivity |].
  destruct (scratch_create W) as [e | t]; simpl; [reflexivity |].
  destruct (scratch_write W _); simpl; [| reflexivity].
  destruct (scratch_parse W _) as [e | root]; reflexivity.
Qed.

Lemma uniform_line_by_line p : uniform (_parse_line_by_line L W p).
Proof.
  intros s. unfold alone, _parse_line_by_line. run. destruct (read_text W p); reflexivity.
Qed.

Lemma uniform_minidom p : uniform (_parse_with_minidom W p).
Proof.
  intros s. unfold alone, _parse_with_minidom. run. destruct (minidom_parse W p); reflexivity.
Qed.

Lemma parsers_uniform p : Forall uniform (parsers L W p).
Proof.
  repeat constructor;
    [apply uniform_standard_xml | apply uniform_recovery | apply uniform_line_by_line
     | apply uniform_minidom].
Qed.

End Strategies.

(** ** The loop and the chain of the claim *)

Section Rounds.
Context (defaults : dict).

Lemma attempt_verdict i parser s :
  quiet parser -> local parser -> uniform parser ->
  exists s',
    attempt defaults i parser s
    = (s', inr (match round_verdict defaults parser (st_data s) with
                | Accepted => Some data_ref
                | _ => None
                end))
    /\ st_data s' = effect parser (st_data s)
    /\ loop_log (st_log s')
       = loop_log (st_log s) ++ round_log i (round_verdict defaults parser (st_data s)).
Proof.
  intros Hq Hl Hu.
  pose (s0 := {| st_data := st_data s; st_log := st_log s ++ [LogTry i];
                 st_files := st_files s |}).
  specialize (Hq s0). specialize (Hl s0). specialize (Hu s0).
  cbn [s0 st_data st_log] in Hq, Hl, Hu. rewrite loop_log_app in Hq. cbn in Hq.
  unfold round_verdict. rewrite <- Hu, <- Hl. clear Hu Hl.
  unfold attempt, try_except, bind, log, deref, lift, ret. cbn [st_data st_log st_files].
  fold s0. destruct (parser s0) as [s1 [e | []]]; cbn [fst snd st_data] in *.
  - eexists. split; [reflexivity |]. cbn [st_data st_log]. split; [reflexivity |].
    rewrite loop_log_app, Hq, <- app_assoc. reflexivity.
  - case_bool_decide as Hd.
    + eexists. split; [reflexivity |]. split; [reflexivity |]. exact Hq.
    + destruct (_has_meaningful_data defaults (st_data s1)) as [e | [|]];
        (eexists; split; [reflexivity |]; cbn [st_data st_log]; split; [reflexivity |]);
        [ rewrite loop_log_app, Hq, <- app_assoc; reflexivity
        | rewrite loop_log_app, Hq, <- app_assoc; reflexivity
        | exact Hq ].
Qed.

Lemma try_parsers_rounds ps :
  Forall quiet ps -> Forall local ps -> Forall uniform ps ->
  forall i s,
  exists s',
    try_parsers defaults i ps s
    = (s', inr (match snd (fst (rounds defaults i ps (st_data s))) with
                | Some _ => Some data_ref
                | None => None
                end))
    /\ st_data s' = snd (rounds defaults i ps (st_data s))
    /\ loop_log (st_log s')
       = loop_log (st_log s) ++ fst (fst (rounds defaults i ps (st_data s))).
Proof.
  induction ps as [| p ps IH]; intros Hq Hl Hu i s.
  - exists s. cbn. rewrite app_nil_r. repeat split.
  - inversion Hq as [| ? ? Hqp Hqps]; subst. inversion Hl as [| ? ? Hlp Hlps]; subst.
    inversion Hu as [| ? ? Hup Hups]; subst.
    destruct (attempt_verdict i p s Hqp Hlp Hup) as (s1 & Hrun & Hdata & Hlog).
    cbn [try_parsers rounds]. unfold bind at 1. rewrite Hrun.
    destruct (IH Hqps Hlps Hups (S i) s1) as (s' & Hrun' & Hdata' & Hlog').
    rewrite Hdata in Hrun', Hdata', Hlog'.
    destruct (round_verdict defaults p (st_data s)) as [| | e].
    + exists s1. cbn. repeat split; assumption.
    + destruct (rounds defaults (S i) ps (effect p (st_data s))) as [[t k] d'].
      exists s'. cbn in *. split; [exact Hrun' |]. split; [exact Hdata' |].
      rewrite Hlog', Hlog, <- app_assoc. reflexivity.
    + destruct (rounds defaults (S i) ps (effect p (st_data s))) as [[t k] d'].
      exists s'. cbn in *. split; [exact Hrun' |]. split; [exact Hdata' |].
      rewrite Hlog', Hlog, <- app_assoc. reflexivity.
Qed.

(** What the rounds say of themselves. *)
Lemma rounds_shape ps : forall i d t accepted d',
  rounds defaults i ps d = (t, accepted, d') ->
  let n := match accepted with Some k => S (k - i) | None => length ps end in
  tried t = seq i n
  /\ (n <= length ps)%nat
  /\ d' = fold_left (fun d m => effect m d) (take n ps) d
  /\ match accepted with
     | Some k =>
         (i <= k)%nat
         /\ (exists t0, t = t0 ++ [LogTry k; LogSuccess k]
                        /\ Forall (fun e => forall j, e <> LogSuccess j) t0)
         /\ d' <> ∅ /\ _has_meaningful_data defaults d' = inr true
     | None => Forall (fun e => forall j, e <> LogSuccess j) t
     end.
Proof.
  induction ps as [| p ps IH]; intros i d t accepted d' H.
  - cbn in H. injection H as <- <- <-. cbn. repeat split; constructor.
  - cbn [rounds] in H.
    destruct (round_verdict defaults p d) as [| | e] eqn:Hv.
    + injection H as <- <- <-. cbn [round_log]. replace (S (i - i)) with 1%nat by lia.
      cbn [tried omap seq take fold_left length]. split; [reflexivity |].
      split; [lia |]. split; [reflexivity |]. split; [lia |].
      split; [exists []; split; [reflexivity | constructor] |].
      unfold round_verdict in Hv. destruct (snd (alone p d)); [discriminate |].
      case_bool_decide as Hd; [discriminate |].
      destruct (_has_meaningful_data defaults (effect p d)) as [? | [|]]; try discriminate.
      split; [exact Hd | reflexivity].
    + destruct (rounds defaults (S i) ps (effect p d)) as [[t1 k1] d1] eqn:Hr.
      injection H as <- <- <-.
      destruct (IH _ _ _ _ _ Hr) as (Ht & Hn & Hd & Hk).
      cbn [round_log app]. destruct k1 as [k |].
      * destruct Hk as (Hik & (t0 & -> & Ht0) & Hne & Hm).
        replace (S (k - i)) with (S (S (k - S i))) by lia.
        cbn [tried omap seq take fold_left length] in *.
        split; [unfold tried in Ht; cbn; rewrite Ht; reflexivity |].
        split; [lia |]. split; [exact Hd |]. split; [lia |].
        split; [| split; assumption].
        exists (LogTry i :: t0). split; [reflexivity |]. constructor; [discriminate | exact Ht0].
      * cbn [tried omap seq take fold_left length] in *.
        split; [unfold tried in Ht; cbn; rewrite Ht; reflexivity |].
        split; [lia |]. split; [exact Hd |]. constructor; [discriminate | exact Hk].
    + destruct (rounds defaults (S i) ps (effect p d)) as [[t1 k1] d1] eqn:Hr.
      injection H as <- <- <-.
      destruct (IH _ _ _ _ _ Hr) as (Ht & Hn & Hd & Hk).
      cbn [round_log app]. destruct k1 as [k |].
      * destruct Hk as (Hik & (t0 & -> & Ht0) & Hne & Hm).
        replace (S (k - i)) with (S (S (k - S i))) by lia.
        cbn [tried omap seq take fold_left length] in *.
        split; [unfold tried in Ht; cbn; rewrite Ht; reflexivity |].
        split; [lia |]. split; [exact Hd |]. split; [lia |].
        split; [| split; assumption].
        exists (LogTry i :: LogFailed i e :: t0). split; [reflexivity |].
        constructor; [discriminate |]. constructor; [discriminate | exact Ht0].
      * cbn [tried omap seq take fold_left length] in *.
        split; [unfold tried in Ht; cbn; rewrite Ht; reflexivity |].
        split; [lia |]. split; [exact Hd |].
        constructor; [discriminate |]. constructor; [discriminate | exact Hk].
Qed.

Local Open Scope nat_scope.

(** The strategy accepted is the first whose round passes. *)
Lemma rounds_first ps : forall i d t accepted d',
  rounds defaults i ps d = (t, accepted, d') ->
  forall j m,
    ps !! j = Some m ->
    (j < match accepted with Some k => S (k - i) | None => length ps end)%nat ->
    round_verdict defaults m (fold_left (fun d m => effect m d) (take j ps) d) = Accepted
    <-> accepted = Some (i + j)%nat.
Proof.
  induction ps as [| p ps IH]; intros i d t accepted d' H j m Hm Hj; [discriminate |].
  pose proof (rounds_shape (p :: ps) i d t accepted d' H) as (_ & _ & _ & Hk).
  cbn [rounds] in H.
  destruct j as [| j].
  - injection Hm as <-. cbn [take fold_left]. rewrite Nat.add_0_r.
    destruct (round_verdict defaults p d) as [| | e] eqn:Hv.
    + injection H as _ <- _. split; reflexivity.
    + destruct (rounds defaults (S i) ps (effect p d)) as [[t1 k1] d1] eqn:Hr.
      injection H as _ <- _.
      pose proof (rounds_shape ps (S i) _ _ _ _ Hr) as (_ & _ & _ & Hk1).
      split; [discriminate |]. intros ->. destruct Hk1 as [Hle _]. lia.
    + destruct (rounds defaults (S i) ps (effect p d)) as [[t1 k1] d1] eqn:Hr.
      injection H as _ <- _.
      pose proof (rounds_shape ps (S i) _ _ _ _ Hr) as (_ & _ & _ & Hk1).
      split; [discriminate |]. intros ->. destruct Hk1 as [Hle _]. lia.
  - cbn [take fold_left]. change ((p :: ps) !! S j) with (ps !! j) in Hm.
    replace (i + S j)%nat with (S i + j)%nat by lia.
    destruct (round_verdict defaults p d) as [| | e] eqn:Hv.
    + injection H as _ <- _. replace (S (i - i)) with 1%nat in Hj by lia. lia.
    + destruct (rounds defaults (S i) ps (effect p d)) as [[t1 k1] d1] eqn:Hr.
      injection H as _ <- _.
      apply (IH _ _ _ _ _ Hr j m Hm).
      destruct k1 as [k |]; [| cbn [length] in Hj; lia].
      destruct Hk as [Hle _].
      pose proof (rounds_shape ps (S i) _ _ _ _ Hr) as (_ & _ & _ & Hk1).
      destruct Hk1 as [Hle1 _]. lia.
    + destruct (rounds defaults (S i) ps (effect p d)) as [[t1 k1] d1] eqn:Hr.
      injection H as _ <- _.
      apply (IH _ _ _ _ _ Hr j m Hm).
      destruct k1 as [k |]; [| cbn [length] in Hj; lia].
      destruct Hk as [Hle _].
      pose proof (rounds_shape ps (S i) _ _ _ _ Hr) as (_ & _ & _ & Hk1).
      destruct Hk1 as [Hle1 _]. lia.
Qed.

End Rounds.

Lemma tried_loop_log l : tried (loop_log l) = tried l.
Proof.
  induction l as [| e l IH]; [reflexivity |].
  unfold tried, loop_log in *. destruct e; cbn in *; rewrite ?IH; reflexivity.
Qed.

Lemma tried_app l1 l2 : tried (l1 ++ l2) = tried l1 ++ tried l2.
Proof.
  induction l1 as [| e l1 IH]; [reflexivity |].
  unfold tried in *. destruct e; cbn in *; rewrite ?IH; reflexivity.
Qed.

(** ** C1 *)

(** [parse_nfo], one step at a time. *)
Lemma parse_nfo_run (L : Library) (W : World) (defaults : dict) (nfo_path : string) (s : state) :
  parse_nfo L W defaults nfo_path s
  = match try_parsers defaults 1 (parsers L W nfo_path)
            {| st_data := initial_data defaults; st_log := st_log s ++ [LogStart];
               st_files := st_files s |} with
    | (s1, inr (Some _)) => (s1, inr (st_data s1))
    | (s1, inr None) =>
        ({| st_data := st_data s1; st_log := st_log s1 ++ [LogAllFailed];
            st_files := st_files s1 |}, inr (st_data s1))
    | (s1, inl e) => (s1, inl e)
    end.
Proof.
  unfold parse_nfo, bind, log, assign, deref, ret.
  destruct (try_parsers _ _ _ _) as [s1 [e | [res |]]]; reflexivity.
Qed.

(** C1, as the claim words it, fails for a parser made from a
    configuration whose nfo_parsing.defaults is there and is no mapping:
    [self.defaults] is then [None], and [parse_nfo] raises
    [AttributeError] for the well-formed sample film as for a missing
    file. *)
Lemma C1_counterexample :
  parser_defaults null_defaults_config = Null
  /\ FixedNFOParser.__init__ null_defaults_config = Some NotMapping
  /\ raised (FixedNFOParser.parse_nfo plain_library Samples.film NotMapping "movie.nfo" start)
     = Some AttributeError
  /\ raised (FixedNFOParser.parse_nfo plain_library Samples.missing NotMapping "movie.nfo" start)
     = Some AttributeError.
Proof. vm_compute. repeat split; reflexivity. Qed.

(** The built-in configuration gives the parser a mapping. *)
Lemma init_gives_a_mapping :
  FixedNFOParser.__init__ PyConfig.get_default_config = Some (Mapping (init_defaults None)).
Proof. vm_compute. reflexivity. Qed.

(** C1, amended: with defaults that are a mapping, for every path and
    whatever the file system and the XML libraries answer for it (a
    missing file, an empty one, bytes that are no XML, XML cut short),
    [parse_nfo] returns a dictionary and raises nothing: it ends with a
    value, and that value is the shared dictionary of the final state.
    With defaults that are no mapping it raises [AttributeError] for
    every path, before any strategy is tried. *)
Theorem C1_parse_nfo_returns_a_record_given_a_defaults_mapping
    (L : Library) (W : World) (self_defaults : pyobject) (nfo_path : string) (s : state) :
  match self_defaults with
  | Mapping defaults =>
      exists s' d,
        FixedNFOParser.parse_nfo L W self_defaults nfo_path s = (s', inr d)
        /\ d = st_data s'
  | NotMapping =>
      FixedNFOParser.parse_nfo L W self_defaults nfo_path s
      = (with_log s [LogStart], inl AttributeError)
  end.
Proof.
  destruct self_defaults as [defaults |]; [| reflexivity].
  cbn [FixedNFOParser.parse_nfo]. rewrite parse_nfo_run.
  destruct (try_parsers_returns defaults (parsers L W nfo_path) 1
              {| st_data := initial_data defaults; st_log := st_log s ++ [LogStart];
                 st_files := st_files s |}) as (s1 & r & ->).
  destruct r; eexists _, _; split; reflexivity.
Qed.

(** ** C2 *)

(** C2, as the claim words it, fails twice.  The well-formed document
    <movie><maker>M</maker></movie> is not handled by strategy 1 alone:
    strategies 1 and 2 parse it and are not accepted, strategy 3 is.
    And for the file cut off before its root closes, no strategy is
    accepted, yet the record returned is not the initial one: its series
    is what strategy 3 wrote. *)
Lemma C2_counterexample :
  (et_parse Samples.maker "movie.nfo" = inr Samples.maker_tree
   /\ st_log (fst (parse_nfo plain_library Samples.maker (init_defaults None) "movie.nfo" start))
      = [LogStart; LogTry 1; LogTry 2; LogRecovered; LogTry 3; LogSuccess 3])
  /\ (st_log (fst (parse_nfo plain_library Samples.cut_off (init_defaults None) "movie.nfo" start))
      = [LogStart; LogTry 1; LogFailed 1 ParseError; LogTry 2; LogFailed 2 ParseError;
         LogTry 3; LogTry 4; LogFailed 4 PlainException; LogAllFailed]
      /\ outcome_field (parse_nfo plain_library Samples.cut_off (init_defaults None) "movie.nfo" start)
           "series" = Some (VStr (PyStr.lit "S"))
      /\ initial_data (init_defaults None) !! "series"%string = Some (VStr [])).
Proof. vm_compute. repeat split; reflexivity. Qed.

(** A round whose strategy returns a record that passes the check
    returns from the loop. *)
Lemma attempt_accepts (defaults : dict) (i : nat) (parser : M ref) (s s1 : state) (res : ref) :
  parser {| st_data := st_data s; st_log := st_log s ++ [LogTry i]; st_files := st_files s |}
    = (s1, inr res) ->
  st_data s1 <> ∅ ->
  _has_meaningful_data defaults (st_data s1) = inr true ->
  attempt defaults i parser s
  = ({| st_data := st_data s1; st_log := st_log s1 ++ [LogSuccess i]; st_files := st_files s1 |},
     inr (Some res)).
Proof.
  intros Hrun Hne Hm. run. rewrite Hrun. simpl.
  case_bool_decide; [contradiction |]. rewrite Hm. reflexivity.
Qed.

Section Extraction.
Context (L : Library).

Lemma extract_date_other root date_fields (d : dict) (k : string) :
  k <> "release_date"%string ->
  extract_date L root date_fields d !! k = d !! k.
Proof.
  intros Hk. induction date_fields as [| f fs IH]; simpl; [reflexivity |].
  destruct (present_text _); [| exact IH].
  rewrite lookup_insert_ne; [reflexivity | congruence].
Qed.

Lemma extract_data_actors root (d : dict) :
  extract_data L root d !! "actors"%string
  = Some (VList (collect_actors L (elem_findall root "actor"))).
Proof.
  unfold extract_data. rewrite extract_date_other by discriminate.
  apply lookup_insert_eq.
Qed.

Lemma extract_data_genre root (d : dict) :
  extract_data L root d !! "genre"%string
  = Some (VList (collect_genre L (elem_findall root "genre"))).
Proof.
  unfold extract_data. rewrite extract_date_other by discriminate.
  rewrite lookup_insert_ne by discriminate. apply lookup_insert_eq.
Qed.

Lemma extract_data_nonempty root (d : dict) : extract_data L root d <> ∅.
Proof.
  intros H. pose proof (extract_data_actors root d) as Ha.
  rewrite H, lookup_empty in Ha. discriminate.
Qed.

End Extraction.

(** C2, amended: the four strategies, strict parse, repair and parse,
    line extraction and minidom, are tried in that order, each on the
    record the one before it has left.  A round whose strategy returns a
    record that is not empty and passes the check returns that record at
    once, logging the success, and no later strategy is tried; a round
    whose strategy raises, or whose result does not pass, goes on to the
    next.  So the call comes to what the chain of the claim comes to:
    the same log, the same record.  The strategies tried are 1 to k,
    where k is the one accepted, or 4 when none is, and the record
    handed back is the initial one with the writes of those strategies;
    when none is accepted the failure is logged.  Of the strategies
    tried only the one accepted has a result that passes, so the one
    accepted is the first that passes.  A document that strategy 1
    parses and whose extracted record passes the check is handled by
    strategy 1 alone. *)
Theorem C2_strategies_tried_in_order_first_accepted_returns
    (L : Library) (W : World) (defaults : dict) (nfo_path : string) :
  let strategies :=
    [ _parse_standard_xml L W nfo_path; _parse_with_recovery L W nfo_path;
      _parse_line_by_line L W nfo_path; _parse_with_minidom W nfo_path ] in
  exists (s' : state) (t : list event) (accepted : option nat) (d : dict),
    rounds defaults 1 strategies (initial_data defaults) = (t, accepted, d)
    /\ parse_nfo L W defaults nfo_path start = (s', inr d)
    /\ st_data s' = d
    /\ loop_log (st_log s')
       = LogStart :: t ++ (match accepted with Some _ => [] | None => [LogAllFailed] end)
    /\ tried (st_log s') = seq 1 (match accepted with Some k => k | None => 4 end)
    /\ d = fold_left (fun d m => effect m d)
             (take (match accepted with Some k => k | None => 4 end) strategies)
             (initial_data defaults)
    /\ (forall k, accepted = Some k ->
        d <> ∅ /\ _has_meaningful_data defaults d = inr true)
    /\ (forall (j : nat) (m : M ref),
          strategies !! j = Some m ->
          (j < match accepted with Some k => k | None => 4 end)%nat ->
          round_verdict defaults m
            (fold_left (fun d m => effect m d) (take j strategies) (initial_data defaults))
          = Accepted
          <-> accepted = Some (S j))
    /\ (forall root,
          et_parse W nfo_path = inr root ->
          _has_meaningful_data defaults (extract_data L root (initial_data defaults)) = inr true ->
          st_log s' = [LogStart; LogTry 1; LogSuccess 1]
          /\ d = extract_data L root (initial_data defaults)).
Proof.
  intros strategies.
  pose (s0 := {| st_data := initial_data defaults; st_log := [LogStart]; st_files := ∅ |}).
  destruct (try_parsers_rounds defaults (parsers L W nfo_path)
              (parsers_quiet L W nfo_path) (parsers_local L W nfo_path)
              (parsers_uniform L W nfo_path) 1 s0) as (s1 & Hrun & Hdata & Hlog).
  change (parsers L W nfo_path) with strategies in Hrun, Hdata, Hlog.
  cbn [s0 st_data st_log] in Hrun, Hdata, Hlog.
  destruct (rounds defaults 1 strategies (initial_data defaults)) as [[t accepted] d] eqn:Hr.
  cbn [fst snd] in Hrun, Hdata, Hlog.
  destruct (rounds_shape defaults strategies 1 _ t accepted d Hr) as (Ht & Hn & Hd & Hk).
  pose proof (rounds_first defaults strategies 1 _ t accepted d Hr) as Hfirst.
  assert (Hwf : forall root,
             et_parse W nfo_path = inr root ->
             _has_meaningful_data defaults (extract_data L root (initial_data defaults)) = inr true ->
             s1 = {| st_data := extract_data L root (initial_data defaults);
                     st_log := [LogStart; LogTry 1; LogSuccess 1]; st_files := ∅ |}
             /\ accepted <> None).
  { intros root Het Hm. revert Hrun. unfold strategies. cbn [try_parsers]. unfold bind at 1.
    erewrite attempt_accepts;
      [ | rewrite standard_xml_run, Het; reflexivity
        | apply extract_data_nonempty
        | exact Hm ].
    cbv beta iota. unfold ret. intros [= <- Hacc]. split; [reflexivity |].
    destruct accepted; [discriminate | discriminate]. }
  rewrite (parse_nfo_run L W defaults nfo_path start).
  change (parsers L W nfo_path) with strategies.
  change (try_parsers defaults 1 strategies _) with (try_parsers defaults 1 strategies s0).
  rewrite Hrun.
  destruct accepted as [k |].
  - exists s1, t, (Some k), d. rewrite app_nil_r.
    destruct Hk as (Hik & _ & Hne & Hm). replace (S (k - 1)) with k in * by lia.
    split; [reflexivity |]. split; [rewrite Hdata; reflexivity |].
    split; [exact Hdata |]. split; [exact Hlog |].
    split; [rewrite <- tried_loop_log, Hlog; cbn; exact Ht |].
    split; [exact Hd |]. split; [intros _ _; split; assumption |].
    split; [intros j m Hj Hlt; exact (Hfirst j m Hj Hlt) |].
    intros root Het Hm'. destruct (Hwf root Het Hm') as [-> _].
    split; [reflexivity |]. symmetry. exact Hdata.
  - exists {| st_data := st_data s1; st_log := st_log s1 ++ [LogAllFailed];
              st_files := st_files s1 |}, t, None, d.
    split; [reflexivity |]. split; [rewrite Hdata; reflexivity |].
    split; [exact Hdata |].
    split; [cbn [st_log]; rewrite loop_log_app, Hlog; reflexivity |].
    split; [cbn [st_log]; rewrite tried_app, <- tried_loop_log, Hlog; cbn;
            rewrite app_nil_r; exact Ht |].
    split; [exact Hd |]. split; [discriminate |].
    split; [intros j m Hj Hlt; exact (Hfirst j m Hj Hlt) |].
    intros root Het Hm. destruct (Hwf root Het Hm) as [_ H]. contradiction.
Qed.

(** The sample film is parsed by strategy 1 and handled by it alone;
    for <movie><maker>M</maker></movie> strategies 1, 2 and 3 are
    tried. *)
Lemma C2_witness :
  st_log (fst (parse_nfo plain_library Samples.film (init_defaults None) "movie.nfo" start))
  = [LogStart; LogTry 1; LogSuccess 1]
  /\ tried (st_log (fst (parse_nfo plain_library Samples.maker (init_defaults None)
                           "movie.nfo" start)))
     = [1; 2; 3]%nat.
Proof.
  split.
  - destruct (C2_strategies_tried_in_order_first_accepted_returns
                plain_library Samples.film (init_defaults None) "movie.nfo")
      as (s' & t & acc & d & _ & Hrun & _ & _ & _ & _ & _ & _ & Hwf).
    rewrite Hrun. cbn [fst].
    apply (Hwf Samples.film_tree); vm_compute; reflexivity.
  - destruct (C2_strategies_tried_in_order_first_accepted_returns
                plain_library Samples.maker (init_defaults None) "movie.nfo")
      as (s' & t & acc & d & Hr & Hrun & _ & _ & Htried & _).
    rewrite Hrun. cbn [fst]. rewrite Htried.
    assert (Hacc : snd (fst (rounds (init_defaults None) 1
                               [ _parse_standard_xml plain_library Samples.maker "movie.nfo";
                                 _parse_with_recovery plain_library Samples.maker "movie.nfo";
                                 _parse_line_by_line plain_library Samples.maker "movie.nfo";
                                 _parse_with_minidom Samples.maker "movie.nfo" ]
                               (initial_data (init_defaults None)))) = Some 3%nat)
      by (vm_compute; reflexivity).
    rewrite Hr in Hacc. cbn [fst snd] in Hacc. rewrite Hacc. reflexivity.
Defined.

(** ** C3 *)

(** C3, as the claim words it, fails twice.  For a missing file the
    record returned has no runtime entry at all, where the claim has
    the empty string.  For an empty file strategy 3 is accepted and the
    record holds the empty string for studio, director and plot, none of
    which is the configured default. *)
Lemma C3_counterexample :
  (raised (parse_nfo plain_library Samples.missing (init_defaults None) "movie.nfo" start) = None
   /\ outcome_field (parse_nfo plain_library Samples.missing (init_defaults None) "movie.nfo" start)
        "runtime" = None)
  /\ (outcome_field (parse_nfo plain_library Samples.empty (init_defaults None) "movie.nfo" start)
        "studio" = Some (VStr [])
      /\ outcome_field (parse_nfo plain_library Samples.empty (init_defaults None) "movie.nfo" start)
           "director" = Some (VStr [])
      /\ outcome_field (parse_nfo plain_library Samples.empty (init_defaults None) "movie.nfo" start)
           "plot" = Some (VStr [])
      /\ init_defaults None !! "studio"%string = Some (VStr Lit.unknown)
      /\ init_defaults None !! "director"%string = Some (VStr Lit.unknown)
      /\ init_defaults None !! "plot"%string = Some (VStr Lit.no_plot)).
Proof. vm_compute. repeat split; reflexivity. Qed.

(** C3, amended: for an unreadable input file, one on which reading it
    and both XML parsers raise, every field of the record returned
    equals its configured default, or the hardcoded fallback where the
    configuration omits it: title, release_date and series are empty
    strings, actors and genre empty lists, and rating, plot, studio,
    director, maker and publisher are at their defaults.  The record has
    no runtime entry. *)
Theorem C3_unreadable_file_gives_the_defaults
    (L : Library) (W : World) (defaults : dict) (nfo_path : string) (e1 e2 e3 : exn) :
  read_text W nfo_path = inl e1 ->
  et_parse W nfo_path = inl e2 ->
  minidom_parse W nfo_path = inl e3 ->
  exists s' d,
    parse_nfo L W defaults nfo_path start = (s', inr d)
    /\ d !! "title"%string = Some (VStr [])
    /\ d !! "release_date"%string = Some (VStr [])
    /\ d !! "series"%string = Some (VStr [])
    /\ d !! "actors"%string = Some (VList [])
    /\ d !! "genre"%string = Some (VList [])
    /\ d !! "rating"%string = Some (dict_get defaults "rating" (VFloat 0%float))
    /\ d !! "plot"%string = Some (dict_get defaults "plot" (VStr Lit.no_plot))
    /\ d !! "studio"%string = Some (dict_get defaults "studio" (VStr Lit.unknown))
    /\ d !! "director"%string = Some (dict_get defaults "director" (VStr Lit.unknown))
    /\ d !! "maker"%string = Some (dict_get defaults "maker" (VStr Lit.unknown))
    /\ d !! "publisher"%string = Some (dict_get defaults "publisher" (VStr Lit.unknown))
    /\ d !! "runtime"%string = None
    /\ dom d = dom (initial_data defaults).
Proof.
  intros Hread Het Hdom.
  unfold parse_nfo, parsers, try_parsers, _parse_standard_xml, _parse_with_recovery,
    _parse_line_by_line, _parse_with_minidom.
  run. rewrite Het. simpl. rewrite Hread. simpl. rewrite Hdom. simpl.
  eexists _, _. split; [reflexivity |].
  repeat split; reflexivity.
Qed.

Lemma C3_witness :
  exists s' d,
    parse_nfo plain_library Samples.missing (init_defaults None) "movie.nfo" start = (s', inr d)
    /\ d !! "studio"%string = Some (VStr Lit.unknown)
    /\ d !! "runtime"%string = None.
Proof.
  destruct (C3_unreadable_file_gives_the_defaults plain_library Samples.missing
              (init_defaults None) "movie.nfo" OSError OSError OSError
              eq_refl eq_refl eq_refl)
    as (s' & d & Hrun & _ & _ & _ & _ & _ & _ & _ & Hstudio & _ & _ & _ & Hruntime & _).
  exists s', d. repeat split; assumption.
Defined.

(** ** C4 *)

(** C4 fails on the code.  With defaults of its own in the
    configuration, the record as initialised, in which nothing was found,
    is accepted: studio and director are compared with the literal
    '未知' and not with the configured default.  With a configuration
    that leaves plot out, the initial record is accepted as well: plot
    was initialised with the literal fallback and is compared with the
    empty string.  By the claim neither record is accepted. *)
Theorem C4_check_compares_with_literals_not_configured_defaults :
  (_has_meaningful_data Config.custom (initial_data Config.custom) = inr true
   /\ meaningful_as_claimed Config.custom (initial_data Config.custom) = false)
  /\ (_has_meaningful_data Config.plot_left_out (initial_data Config.plot_left_out) = inr true
      /\ meaningful_as_claimed Config.plot_left_out (initial_data Config.plot_left_out) = false).
Proof. vm_compute. repeat split; reflexivity. Qed.

(** ** C5 *)

Section Rating.
Context (L : Library).

Lemma extract_field_other root (d : dict) (f t k : string) :
  k <> f -> extract_field L root d (f, t) !! k = d !! k.
Proof.
  intros Hk. unfold extract_field.
  destruct (present_text _); [| reflexivity].
  destruct (PyStr.truthy _); [| reflexivity].
  destruct (String.eqb f "rating").
  - destruct (PyFloat.of_str L _); [| reflexivity].
    rewrite lookup_insert_ne; [reflexivity | congruence].
  - rewrite lookup_insert_ne; [reflexivity | congruence].
Qed.

Lemma extract_data_rating root (d : dict) :
  extract_data L root d !! "rating"%string
  = match present_text (elem_find root "rating") with
    | Some text =>
        if PyStr.truthy (_clean_text L text) then
          match PyFloat.of_str L (_clean_text L text) with
          | Some f => Some (VFloat f)
          | None => d !! "rating"%string
          end
        else d !! "rating"%string
    | None => d !! "rating"%string
    end.
Proof.
  unfold extract_data. rewrite extract_date_other by discriminate.
  rewrite !lookup_insert_ne by discriminate.
  unfold fields. cbn [fold_left].
  rewrite !(extract_field_other _ _ _ _ "rating") by discriminate.
  unfold extract_field at 1.
  destruct (present_text _); [| rewrite !extract_field_other by discriminate; reflexivity].
  destruct (PyStr.truthy _); [| rewrite !extract_field_other by discriminate; reflexivity].
  cbn [String.eqb Ascii.eqb Bool.eqb].
  destruct (PyFloat.of_str L _).
  - apply lookup_insert_eq.
  - rewrite !extract_field_other by discriminate. reflexivity.
Qed.

Lemma line_by_line_rating content (d : dict) :
  line_by_line L content d !! "rating"%string
  = let rating_text := _extract_field L content (re_tag "rating" true) in
    if PyStr.truthy rating_text then
      match PyFloat.of_str L rating_text with
      | Some f => Some (VFloat f)
      | None => d !! "rating"%string
      end
    else d !! "rating"%string.
Proof.
  unfold line_by_line. cbv zeta.
  rewrite !lookup_insert_ne by discriminate.
  destruct (PyStr.truthy _).
  - destruct (PyFloat.of_str L _).
    + apply lookup_insert_eq.
    + rewrite !lookup_insert_ne by discriminate. reflexivity.
  - rewrite !lookup_insert_ne by discriminate. reflexivity.
Qed.

End Rating.

(** C5, as the claim words it, fails: the rating text "8.25" of the
    sample film is stored as 8.25, which is neither 8.2 nor 8.3, by
    [parse_nfo] through strategy 1 and by strategy 3 on the same text. *)
Lemma C5_counterexample :
  outcome_field (parse_nfo plain_library Samples.film (init_defaults None) "movie.nfo" start)
    "rating" = Some (VFloat 8.25%float)
  /\ line_by_line plain_library Samples.film_text (initial_data (init_defaults None))
       !! "rating"%string = Some (VFloat 8.25%float)
  /\ option_map (PrimFloat.eqb 8.25%float) (PyFloat.of_str plain_library (PyStr.lit "8.2"))
     = Some false
  /\ option_map (PrimFloat.eqb 8.25%float) (PyFloat.of_str plain_library (PyStr.lit "8.3"))
     = Some false.
Proof. vm_compute. repeat split; reflexivity. Qed.

(** C5, amended: whenever strategy 1, 2 or 3 extracts a rating whose
    cleaned text is not empty, then if the text parses as a float the
    stored rating is exactly that float, not rounded ("7" gives 7.0 and
    "8.25" gives 8.25), and if it does not parse the rating keeps its
    prior value; extraction raises nothing either way. *)
Theorem C5_rating_is_stored_as_parsed
    (L : Library) (root : Element) (content : pystr) (d : dict) (s : state) :
  (forall text,
      present_text (elem_find root "rating") = Some text ->
      PyStr.truthy (_clean_text L text) = true ->
      extract_data L root d !! "rating"%string
      = match PyFloat.of_str L (_clean_text L text) with
        | Some f => Some (VFloat f)
        | None => d !! "rating"%string
        end)
  /\ (PyStr.truthy (_extract_field L content (re_tag "rating" true)) = true ->
      line_by_line L content d !! "rating"%string
      = match PyFloat.of_str L (_extract_field L content (re_tag "rating" true)) with
        | Some f => Some (VFloat f)
        | None => d !! "rating"%string
        end)
  /\ raised (_extract_data_safe L root s) = None
  /\ PyFloat.of_str L (PyStr.lit "7") = Some 7%float
  /\ PyFloat.of_str L (PyStr.lit "8.25") = Some 8.25%float.
Proof.
  split; [| split; [| split; [| split]]].
  - intros text Hp Ht. rewrite extract_data_rating, Hp, Ht. reflexivity.
  - intros Ht. rewrite line_by_line_rating. cbv zeta. rewrite Ht. reflexivity.
  - reflexivity.
  - reflexivity.
  - reflexivity.
Qed.

Lemma C5_witness :
  extract_data plain_library Samples.film_tree (initial_data (init_defaults None))
    !! "rating"%string = Some (VFloat 8.25%float)
  /\ line_by_line plain_library Samples.film_text (initial_data (init_defaults None))
       !! "rating"%string = Some (VFloat 8.25%float).
Proof.
  destruct (C5_rating_is_stored_as_parsed plain_library Samples.film_tree Samples.film_text
              (initial_data (init_defaults None)) start) as (H1 & H2 & _).
  split.
  - rewrite (H1 (PyStr.lit "8.25")); [| vm_compute; reflexivity | vm_compute; reflexivity].
    vm_compute. reflexivity.
  - rewrite H2; [| vm_compute; reflexivity]. vm_compute. reflexivity.
Defined.

(** ** C6 *)

(** C6 fails on the code.  For the file <movie><title>A</title>, cut
    off after its title, strategies 1 and 2 raise and strategy 3 is
    accepted.  The text has no studio, director or plot tag, and the
    record returned holds the empty string for each, where the record
    started with the configured defaults: strategy 3 assigns what
    [_extract_field] returns whether or not the pattern matched.  The
    title, which is there, is extracted. *)
Theorem C6_line_extraction_overwrites_fields_it_did_not_find :
  let r := parse_nfo plain_library Samples.title_only (init_defaults None) "movie.nfo" start in
  st_log (fst r)
  = [LogStart; LogTry 1; LogFailed 1 ParseError; LogTry 2; LogFailed 2 ParseError;
     LogTry 3; LogSuccess 3]
  /\ Re.search (re_tag "studio" true) Samples.title_only_text = None
  /\ Re.search (re_tag "director" true) Samples.title_only_text = None
  /\ Re.search (re_tag "plot" true) Samples.title_only_text = None
  /\ initial_data (init_defaults None) !! "studio"%string = Some (VStr Lit.unknown)
  /\ initial_data (init_defaults None) !! "director"%string = Some (VStr Lit.unknown)
  /\ initial_data (init_defaults None) !! "plot"%string = Some (VStr Lit.no_plot)
  /\ outcome_field r "studio" = Some (VStr [])
  /\ outcome_field r "director" = Some (VStr [])
  /\ outcome_field r "plot" = Some (VStr [])
  /\ outcome_field r "title" = Some (VStr (PyStr.lit "A")).
Proof. vm_compute. repeat split; reflexivity. Qed.

(** ** C7 *)

(** The record returned is the initial one with the updates of the
    strategies tried applied in order. *)
Lemma parse_nfo_accumulates
    (L : Library) (W : World) (defaults : dict) (nfo_path : string) :
  exists (s' : state) (k : nat),
    parse_nfo L W defaults nfo_path start = (s', inr (st_data s'))
    /\ (1 <= k <= 4)%nat
    /\ st_data s'
       = fold_left (fun d strategy => effect strategy d) (take k (parsers L W nfo_path))
           (initial_data defaults)
    /\ ((k < 4)%nat -> _has_meaningful_data defaults (st_data s') = inr true).
Proof.
  pose (s0 := {| st_data := initial_data defaults; st_log := [LogStart]; st_files := ∅ |}).
  destruct (try_parsers_spec defaults (parsers L W nfo_path)
              (parsers_quiet L W nfo_path) (parsers_local L W nfo_path) 1 s0)
    as (s1 & r & t & k & Hrun & _ & _ & Hk & Hd & Hr).
  rewrite (parse_nfo_run L W defaults nfo_path start).
  change (try_parsers defaults 1 (parsers L W nfo_path) _)
    with (try_parsers defaults 1 (parsers L W nfo_path) s0).
  rewrite Hrun. change (length (parsers L W nfo_path)) with 4%nat in *.
  destruct r as [res |].
  - destruct Hr as (Hk1 & _ & Hm). exists s1, k.
    split; [reflexivity |]. split; [lia |]. split; [exact Hd |]. intros _. exact Hm.
  - subst k.
    exists {| st_data := st_data s1; st_log := st_log s1 ++ [LogAllFailed];
              st_files := st_files s1 |}, 4%nat.
    split; [reflexivity |]. split; [lia |]. split; [exact Hd |]. lia.
Qed.



(** ** C8 *)

(** C8 fails on the code.  In the sample file with nested fields,
    strategies 1 to 3 find nothing that passes the check and strategy 4
    is accepted.  It stores the title as minidom holds it: the TAB, a C0
    control character that [_clean_text] removes, is still in the record
    returned. *)
Theorem C8_minidom_stores_text_uncleaned :
  let r := parse_nfo plain_library Samples.nested (init_defaults None) "movie.nfo" start in
  st_log (fst r)
  = [LogStart; LogTry 1; LogTry 2; LogRecovered; LogTry 3; LogTry 4; LogSuccess 4]
  /\ outcome_field r "title" = Some (VStr ([0x09] ++ PyStr.lit "A"))
  /\ category_C plain_library 0x09 = true
  /\ _clean_text plain_library ([0x09] ++ PyStr.lit "A") = PyStr.lit "A".
Proof. vm_compute. repeat split; reflexivity. Qed.

(** ** C9 *)

(** C9 fails on the code.  When the scratch file is created and writing
    the repaired text to it raises, strategy 2 ends with that exception
    and the scratch file is still on disk: the [finally] that removes it
    belongs to the [try] that starts after the write.  [parse_nfo] goes
    on to strategy 3 and returns with the file left behind. *)
Theorem C9_scratch_file_left_when_write_fails :
  scratch_create Samples.no_space = inr "/tmp/tmp0.nfo"%string
  /\ raised (_parse_with_recovery plain_library Samples.no_space "movie.nfo" start) = Some OSError
  /\ elements (st_files (fst (_parse_with_recovery plain_library Samples.no_space "movie.nfo" start)))
     = ["/tmp/tmp0.nfo"%string]
  /\ raised (parse_nfo plain_library Samples.no_space (init_defaults None) "movie.nfo" start) = None
  /\ elements (st_files (fst (parse_nfo plain_library Samples.no_space (init_defaults None)
                                "movie.nfo" start)))
     = ["/tmp/tmp0.nfo"%string].
Proof. vm_compute. repeat split; reflexivity. Qed.

(** ** The strategies, one step at a time *)

Lemma attempt_run (defaults : dict) (i : nat) (parser : M ref) (s : state) :
  attempt defaults i parser s
  = match parser (with_log s [LogTry i]) with
    | (s1, inl e) => (with_log s1 [LogFailed i e], inr None)
    | (s1, inr res) =>
        if bool_decide (st_data s1 = ∅) then (s1, inr None)
        else
          match _has_meaningful_data defaults (st_data s1) with
          | inl e => (with_log s1 [LogFailed i e], inr None)
          | inr true => (with_log s1 [LogSuccess i], inr (Some res))
          | inr false => (s1, inr None)
          end
    end.
Proof.
  unfold attempt, try_except, bind, log, deref, lift, ret, with_log. cbn [st_data st_log st_files].
  destruct (parser _) as [s1 [e | res]]; [reflexivity |].
  cbn [st_data]. case_bool_decide; [reflexivity |].
  destruct (_has_meaningful_data defaults (st_data s1)) as [e | [|]]; reflexivity.
Qed.

Lemma try_parsers_cons (defaults : dict) (i : nat) (p : M ref) (ps : list (M ref)) (s : state) :
  try_parsers defaults i (p :: ps) s
  = match attempt defaults i p s with
    | (s1, inr (Some res)) => (s1, inr (Some res))
    | (s1, inr None) => try_parsers defaults (S i) ps s1
    | (s1, inl e) => (s1, inl e)
    end.
Proof.
  cbn [try_parsers]. unfold bind at 1.
  destruct (attempt defaults i p s) as [s1 [e | [res |]]]; reflexivity.
Qed.

Section Runs.
Context (L : Library) (W : World).

Lemma recovery_run p s :
  _parse_with_recovery L W p s
  = match read_text W p with
    | inl e => (s, inl e)
    | inr content =>
        match scratch_create W with
        | inl e => (s, inl e)
        | inr t =>
            if scratch_write W (_fix_xml_issues L content) then
              match scratch_parse W (_fix_xml_issues L content) with
              | inl e =>
                  ({| st_data := st_data s; st_log := st_log s;
                      st_files := ({[t]} ∪ st_files s) ∖ {[t]} |}, inl e)
              | inr root =>
                  ({| st_data := extract_data L root (st_data s);
                      st_log := st_log s ++ [LogRecovered];
                      st_files := ({[t]} ∪ st_files s) ∖ {[t]} |}, inr data_ref)
              end
            else
              ({| st_data := st_data s; st_log := st_log s;
                  st_files := {[t]} ∪ st_files s |}, inl OSError)
        end
    end.
Proof.
  unfold _parse_with_recovery, _extract_data_safe, try_finally, try_except, bind, lift, ret,
    raise, add_file, unlink, update, log.
  destruct (read_text W p) as [e | c]; [reflexivity |].
  destruct (scratch_create W) as [e | t]; [reflexivity |].
  cbn [st_data st_log st_files].
  destruct (scratch_write W _); [| reflexivity].
  destruct (scratch_parse W _) as [e | root]; reflexivity.
Qed.

Lemma line_by_line_run p s :
  _parse_line_by_line L W p s
  = match read_text W p with
    | inl e => (s, inl e)
    | inr content =>
        ({| st_data := line_by_line L content (st_data s); st_log := st_log s;
            st_files := st_files s |}, inr data_ref)
    end.
Proof.
  unfold _parse_line_by_line, bind, lift, ret, update.
  destruct (read_text W p); reflexivity.
Qed.

Lemma minidom_run p s :
  _parse_with_minidom W p s
  = match minidom_parse W p with
    | inl _ => (s, inl PlainException)
    | inr doc =>
        ({| st_data := minidom_field doc "series"
                         (minidom_field doc "studio" (minidom_field doc "title" (st_data s)));
            st_log := st_log s; st_files := st_files s |}, inr data_ref)
    end.
Proof.
  unfold _parse_with_minidom, try_except, bind, lift, ret, raise, update.
  destruct (minidom_parse W p); reflexivity.
Qed.

End Runs.

Lemma line_by_line_empty (L : Library) (d : dict) :
  line_by_line L [] d
  = <["actors" := VList []]>
      (<["genre" := VList []]>
         (<["runtime" := VStr []]>
            (<["series" := VStr []]>
               (<["release_date" := VStr []]>
                  (<["plot" := VStr []]>
                     (<["director" := VStr []]>
                        (<["studio" := VStr []]> (<["title" := VStr []]> d)))))))).
Proof. reflexivity. Qed.

(** Strategies 1, 2 and 4 raise and strategy 3 reads the text: the
    record returned is what strategy 3 makes of the initial one. *)
Lemma only_line_by_line_works
    (L : Library) (W : World) (defaults : dict) (nfo_path : string)
    (content : pystr) (e2 e3 e4 : exn) :
  read_text W nfo_path = inr content ->
  et_parse W nfo_path = inl e2 ->
  minidom_parse W nfo_path = inl e3 ->
  scratch_parse W (_fix_xml_issues L content) = inl e4 ->
  exists s',
    parse_nfo L W defaults nfo_path start
    = (s', inr (line_by_line L content (initial_data defaults))).
Proof.
  intros Hread Het Hdom Hscratch.
  rewrite parse_nfo_run. unfold parsers.
  rewrite try_parsers_cons, attempt_run, standard_xml_run, Het.
  rewrite try_parsers_cons, attempt_run, recovery_run, Hread, Hscratch.
  assert (Hrest : forall s : state,
             st_data s = initial_data defaults ->
             exists s' r,
               try_parsers defaults 3
                 [_parse_line_by_line L W nfo_path; _parse_with_minidom W nfo_path] s
               = (s', inr r)
               /\ st_data s' = line_by_line L content (initial_data defaults)).
  { intros s Hs.
    rewrite try_parsers_cons, attempt_run, line_by_line_run, Hread.
    cbn [st_data with_log]. rewrite Hs.
    assert (Hlast : forall s1 : state,
               st_data s1 = line_by_line L content (initial_data defaults) ->
               exists s' r,
                 try_parsers defaults 4 [_parse_with_minidom W nfo_path] s1 = (s', inr r)
                 /\ st_data s' = line_by_line L content (initial_data defaults)).
    { intros s1 Hs1. rewrite try_parsers_cons, attempt_run, minidom_run, Hdom.
      cbn [try_parsers]. unfold ret. eexists _, _. split; [reflexivity |]. exact Hs1. }
    case_bool_decide; [apply Hlast; reflexivity |].
    destruct (_has_meaningful_data defaults _) as [e | [|]].
    - apply Hlast. reflexivity.
    - eexists _, _. split; reflexivity.
    - apply Hlast. reflexivity. }
  destruct (scratch_create W) as [e | t]; [| destruct (scratch_write W _)];
    (match goal with
     | |- context [try_parsers defaults 3 ?ps ?s] =>
         destruct (Hrest s eq_refl) as (s' & r & -> & Hd)
     end;
     destruct r; eexists; rewrite <- Hd; reflexivity).
Qed.

(** ** C10 *)

Lemma initial_data_typed defaults : defaults_typed defaults -> typed (initial_data defaults).
Proof.
  intros ([f Hf] & [p Hp] & [s Hs] & [d Hd]). unfold typed, initial_data.
  repeat split; eexists; cbn -[dict_get];
    first [reflexivity | rewrite Hf; reflexivity | rewrite Hp; reflexivity
          | rewrite Hs; reflexivity | rewrite Hd; reflexivity].
Qed.

Section Actors.
Context (L : Library).





Lemma extract_field_typed root (d : dict) ft :
  In ft fields -> typed d -> typed (extract_field L root d ft).
Proof.
  intros Hin Ht. unfold extract_field. destruct ft as [f t].
  destruct (present_text _); [| exact Ht].
  destruct (PyStr.truthy _); [| exact Ht].
  unfold fields in Hin. simpl in Hin.
  destruct Ht as (H1 & H2 & H3 & H4 & H5 & H6 & H7 & H8).
  repeat (destruct Hin as [[= <- <-] | Hin]); try contradiction;
    cbn [String.eqb Ascii.eqb Bool.eqb];
    try (destruct (PyFloat.of_str L _); [| repeat split; assumption]);
    repeat split;
    first [ rewrite lookup_insert_ne by discriminate; assumption
          | rewrite lookup_insert_eq; eexists; reflexivity ].
Qed.

Lemma extract_fields_typed root fs : forall d : dict,
  (forall ft, In ft fs -> In ft fields) -> typed d -> typed (fold_left (extract_field L root) fs d).
Proof.
  induction fs as [| ft fs IH]; intros d Hin Ht; [exact Ht |].
  simpl. apply IH; [intros; apply Hin; right; assumption |].
  apply extract_field_typed; [apply Hin; left; reflexivity | exact Ht].
Qed.

Lemma extract_date_typed root date_fields : forall d : dict,
  typed d -> typed (extract_date L root date_fields d).
Proof.
  induction date_fields as [| f fs IH]; intros d Ht; simpl; [exact Ht |].
  destruct (present_text _); [| apply IH; exact Ht].
  destruct Ht as (H1 & H2 & H3 & H4 & H5 & H6 & H7 & H8).
  repeat split;
    first [ rewrite lookup_insert_ne by discriminate; assumption
          | rewrite lookup_insert_eq; eexists; reflexivity ].
Qed.

Lemma extract_data_typed root (d : dict) : typed d -> typed (extract_data L root d).
Proof.
  intros Ht. unfold extract_data. apply extract_date_typed.
  pose proof (extract_fields_typed root fields d (fun _ H => H) Ht)
    as (H1 & H2 & H3 & H4 & H5 & H6 & H7 & H8).
  repeat split;
    first [ rewrite !lookup_insert_ne by discriminate; assumption
          | rewrite lookup_insert_eq; eexists; reflexivity
          | rewrite lookup_insert_ne by discriminate; rewrite lookup_insert_eq;
            eexists; reflexivity ].
Qed.

End Actors.


(** ** The pattern of strategy 3 on a listing *)

Section ActorPattern.










End ActorPattern.






(** ** Further properties *)

(** X1: When the repaired text was written to the scratch file, strategy 2
    removes the file on every way out: after a parse that worked and
    after one that raised. *)
Theorem scratch_file_removed_once_written
    (L : Library) (W : World) (nfo_path : string) (s : state) (content : pystr) (t : string) :
  read_text W nfo_path = inr content ->
  scratch_create W = inr t ->
  scratch_write W (_fix_xml_issues L content) = true ->
  (t ∉ st_files (fst (_parse_with_recovery L W nfo_path s)))
  /\ st_files (fst (_parse_with_recovery L W nfo_path s)) ⊆ st_files s.
Proof.
  intros Hread Hcreate Hwrite.
  unfold _parse_with_recovery, _extract_data_safe. run.
  rewrite Hread. simpl. rewrite Hcreate. simpl. rewrite Hwrite. simpl.
  assert (Hfiles : forall X : gset string,
             (t ∉ ({[t]} ∪ X) ∖ {[t]}) /\ ({[t]} ∪ X) ∖ {[t]} ⊆ X).
  { intros X. split.
    - rewrite elem_of_difference, elem_of_singleton. tauto.
    - intros x. rewrite elem_of_difference, elem_of_union, elem_of_singleton. tauto. }
  destruct (scratch_parse W _) as [e | root]; simpl; apply Hfiles.
Qed.

Lemma scratch_file_removed_sample :
  raised (_parse_with_recovery plain_library Samples.ampersand "movie.nfo" start) = None
  /\ ("/tmp/tmp0.nfo"%string
        ∉ st_files (fst (_parse_with_recovery plain_library Samples.ampersand "movie.nfo" start))).
Proof.
  split; [vm_compute; reflexivity |].
  apply (scratch_file_removed_once_written plain_library Samples.ampersand "movie.nfo" start
           Samples.ampersand_text "/tmp/tmp0.nfo"); vm_compute; reflexivity.
Defined.

Section Frame.
Context (L : Library).

Lemma extract_fields_absent root fs (k : string) : forall d : dict,
  (forall f t, In (f, t) fs -> f = k -> present_text (elem_find root t) = None) ->
  fold_left (extract_field L root) fs d !! k = d !! k.
Proof.
  induction fs as [| [f t] fs IH]; intros d Hfs; [reflexivity |].
  cbn [fold_left]. rewrite IH by (intros; eapply Hfs; [right |]; eassumption).
  destruct (decide (k = f)) as [-> | Hne].
  - unfold extract_field. rewrite (Hfs f t); [reflexivity | left; reflexivity | reflexivity].
  - apply extract_field_other. exact Hne.
Qed.

Lemma dom_extract_field root (d : dict) ft : dom d ⊆ dom (extract_field L root d ft).
Proof.
  unfold extract_field. destruct ft as [f t].
  destruct (present_text _); [| reflexivity].
  destruct (PyStr.truthy _); [| reflexivity].
  destruct (String.eqb f "rating").
  - destruct (PyFloat.of_str L _); [apply dom_insert_subseteq | reflexivity].
  - apply dom_insert_subseteq.
Qed.

Lemma dom_extract_fields root fs : forall d : dict,
  dom d ⊆ dom (fold_left (extract_field L root) fs d).
Proof.
  induction fs as [| ft fs IH]; intros d; [reflexivity |].
  cbn [fold_left]. etransitivity; [apply dom_extract_field | apply IH].
Qed.

Lemma dom_extract_date root date_fields : forall d : dict,
  dom d ⊆ dom (extract_date L root date_fields d).
Proof.
  induction date_fields as [| f fs IH]; intros d; simpl; [reflexivity |].
  destruct (present_text _); [apply dom_insert_subseteq | apply IH].
Qed.

Lemma dom_extract_data root (d : dict) : dom d ⊆ dom (extract_data L root d).
Proof.
  unfold extract_data.
  etransitivity; [| apply dom_extract_date].
  etransitivity; [| apply dom_insert_subseteq].
  etransitivity; [| apply dom_insert_subseteq].
  apply dom_extract_fields.
Qed.

Lemma dom_line_by_line content (d : dict) : dom d ⊆ dom (line_by_line L content d).
Proof.
  unfold line_by_line. cbv zeta.
  repeat (etransitivity; [| apply dom_insert_subseteq]).
  destruct (PyStr.truthy _); [destruct (PyFloat.of_str L _) |];
    repeat (etransitivity; [| apply dom_insert_subseteq]); reflexivity.
Qed.

Lemma dom_minidom_field doc name (d : dict) : dom d ⊆ dom (minidom_field doc name d).
Proof.
  unfold minidom_field. destruct (List.find _ _); [| reflexivity].
  destruct (firstChild _); [apply dom_insert_subseteq | reflexivity].
Qed.

End Frame.

(** No strategy removes a key. *)
Lemma parsers_keep_keys (L : Library) (W : World) (nfo_path : string) :
  Forall (fun strategy => forall d : dict, dom d ⊆ dom (effect strategy d)) (parsers L W nfo_path).
Proof.
  repeat constructor; intros d; unfold effect.
  - rewrite standard_xml_run. destruct (et_parse W nfo_path); [reflexivity | apply dom_extract_data].
  - unfold _parse_with_recovery, _extract_data_safe. run.
    destruct (read_text W nfo_path); simpl; [reflexivity |].
    destruct (scratch_create W); simpl; [reflexivity |].
    destruct (scratch_write W _); simpl; [| reflexivity].
    destruct (scratch_parse W _); simpl; [reflexivity | apply dom_extract_data].
  - unfold _parse_line_by_line. run.
    destruct (read_text W nfo_path); simpl; [reflexivity | apply dom_line_by_line].
  - unfold _parse_with_minidom. run.
    destruct (minidom_parse W nfo_path); simpl; [reflexivity |].
    etransitivity; [| apply dom_minidom_field].
    etransitivity; [| apply dom_minidom_field].
    apply dom_minidom_field.
Qed.

Lemma fold_effects_keep_keys (ps : list (M ref)) :
  Forall (fun strategy => forall d : dict, dom d ⊆ dom (effect strategy d)) ps ->
  forall d : dict, dom d ⊆ dom (fold_left (fun d strategy => effect strategy d) ps d).
Proof.
  induction 1 as [| p ps Hp _ IH]; intros d; [reflexivity |].
  cbn [fold_left]. etransitivity; [apply Hp | apply IH].
Qed.

(** X2: The extraction of strategies 1 and 2 overwrites a scalar field only
    with text it found: a field whose element is absent, or has no text,
    keeps the value it had.  And no key is ever removed: the record
    [parse_nfo] returns has every key of the initial record. *)
Theorem extraction_keeps_what_it_does_not_find
    (L : Library) (W : World) (defaults : dict) (nfo_path : string)
    (root : Element) (d : dict) :
  (forall k, In k (map fst fields) ->
             present_text (elem_find root k) = None ->
             extract_data L root d !! k = d !! k)
  /\ dom (initial_data defaults)
       ⊆ dom (st_data (fst (parse_nfo L W defaults nfo_path start))).
Proof.
  split.
  - intros k Hk Habsent. unfold extract_data.
    assert (Hne : k <> "release_date"%string /\ k <> "actors"%string /\ k <> "genre"%string).
    { unfold fields in Hk. simpl in Hk.
      repeat (destruct Hk as [<- | Hk]; [repeat split; discriminate |]). contradiction. }
    destruct Hne as (H1 & H2 & H3).
    rewrite extract_date_other by exact H1.
    rewrite !lookup_insert_ne by congruence.
    apply extract_fields_absent.
    intros f t Hin ->. unfold fields in Hin. simpl in Hin.
    repeat (destruct Hin as [[= <- <-] | Hin]; [exact Habsent |]). contradiction.
  - destruct (parse_nfo_accumulates L W defaults nfo_path)
      as (s' & k & Hrun & _ & Hd & _).
    rewrite Hrun. cbn [fst]. rewrite Hd.
    apply fold_effects_keep_keys.
    apply Forall_take. apply parsers_keep_keys.
Qed.

Lemma sub_from_chars r repl : forall s skip c,
  In c (Re.sub_from r repl skip s) -> In c s \/ In c repl.
Proof.
  induction s as [| x s IH]; intros skip c Hc.
  - destruct skip; simpl in Hc; contradiction.
  - destruct skip as [| k]; cbn [Re.sub_from] in Hc.
    + destruct (Re.match_at r (x :: s)) as [[g rest] |].
      * destruct (Re.consumed (x :: s) rest).
        -- destruct Hc as [<- | Hc]; [left; left; reflexivity |].
           destruct (IH _ _ Hc); [left; right; assumption | right; assumption].
        -- apply in_app_or in Hc. destruct Hc as [Hc | Hc]; [right; assumption |].
           destruct (IH _ _ Hc); [left; right; assumption | right; assumption].
      * destruct Hc as [<- | Hc]; [left; left; reflexivity |].
        destruct (IH _ _ Hc); [left; right; assumption | right; assumption].
    + destruct (IH _ _ Hc); [left; right; assumption | right; assumption].
Qed.

Lemma lstrip_chars s c : In c (PyStr.lstrip s) -> In c s.
Proof.
  induction s as [| x s IH]; simpl; [tauto |].
  destruct (PyStr.isspace x); [intros H; right; apply IH, H | simpl; tauto].
Qed.

Lemma strip_chars s c : In c (PyStr.strip s) -> In c s.
Proof.
  unfold PyStr.strip, PyStr.rstrip. intros H.
  apply in_rev, lstrip_chars, in_rev, lstrip_chars in H. exact H.
Qed.

(** X3: When [html.unescape] returns on the text, the cleaned text holds
    no character of a category C, given that the Unicode database does
    not place the blank there.  When [html.unescape] raises, the text
    comes back stripped and otherwise as it was. *)
Theorem clean_text_has_no_control_character (L : Library) (text : pystr) :
  ucd_format_or_unassigned L 0x20 = false ->
  (html_unescape L text <> None ->
   forall c, In c (_clean_text L text) -> category_C L c = false)
  /\ (html_unescape L text = None -> _clean_text L text = PyStr.strip text).
Proof.
  intros Hblank. unfold _clean_text.
  destruct (PyStr.truthy text) eqn:Ht; cbn [negb].
  - destruct (html_unescape L text) as [unescaped |] eqn:Hu.
    + split; [| discriminate]. intros _ c Hc.
      apply strip_chars in Hc. apply sub_from_chars in Hc. destruct Hc as [Hc | Hc].
      * apply List.filter_In in Hc. destruct Hc as [_ Hc].
        apply negb_true_iff in Hc. exact Hc.
      * vm_compute in Hc. destruct Hc as [<- | []].
        unfold category_C. rewrite Hblank. reflexivity.
    + split; [intros H; contradiction | reflexivity].
  - split; [intros _ c [] |]. intros _.
    destruct text; [reflexivity | discriminate].
Qed.

(** A title with an embedded NUL, as strategy 3 reads it from the raw
    text: the NUL goes, the text around it stays. *)
Lemma clean_text_sample :
  category_C plain_library 0x00 = true
  /\ _clean_text plain_library (PyStr.lit "Ab" ++ [0x00] ++ PyStr.lit "cd") = PyStr.lit "Abcd"
  /\ category_C plain_library 0x41 = false.
Proof.
  split; [reflexivity |]. split; [vm_compute; reflexivity |].
  refine (proj1 (clean_text_has_no_control_character plain_library
           (PyStr.lit "Ab" ++ [0x00] ++ PyStr.lit "cd") _) _ 0x41 _).
  - reflexivity.
  - vm_compute. discriminate.
  - vm_compute. left. reflexivity.
Defined.

(** A character reference too long for [int]: the text comes back
    stripped, its TAB and its run of blanks kept. *)
Lemma clean_text_raising_sample :
  let L := {| charref_sub := fun _ => None;
              ucd_format_or_unassigned := ucd_format_or_unassigned plain_library;
              ucd_digit_beyond_ascii := ucd_digit_beyond_ascii plain_library;
              float_other := float_other plain_library |} in
  _clean_text L (PyStr.lit " a" ++ [0x09] ++ PyStr.lit "&  b ")
  = PyStr.lit "a" ++ [0x09] ++ PyStr.lit "&  b".
Proof. vm_compute. reflexivity. Qed.

(** * More of the code *)

(** ** What strategy 3 leaves in the record *)

Ltac line_lookup :=
  unfold line_by_line; cbv zeta;
  rewrite ?lookup_insert_ne by discriminate;
  try (destruct (PyStr.truthy _); [destruct (PyFloat.of_str _ _) |]);
  rewrite ?lookup_insert_ne by discriminate;
  first [apply lookup_insert_eq | reflexivity].

Section LineByLine.
Context (L : Library).

(** What strategy 3 leaves in each field it assigns: the cleaned first
    match of the field's pattern, or the empty string. *)
Lemma line_by_line_text content (d : dict) :
  line_by_line L content d !! "title"%string
    = Some (VStr (_extract_field L content (re_tag "title" true)))
  /\ line_by_line L content d !! "studio"%string
    = Some (VStr (_extract_field L content (re_tag "studio" true)))
  /\ line_by_line L content d !! "director"%string
    = Some (VStr (_extract_field L content (re_tag "director" true)))
  /\ line_by_line L content d !! "plot"%string
    = Some (VStr (_extract_field L content (re_tag "plot" true)))
  /\ line_by_line L content d !! "release_date"%string
    = Some (VStr (_extract_field L content (re_tag "releasedate" true)))
  /\ line_by_line L content d !! "series"%string
    = Some (VStr (_extract_field L content (re_tag "series" true)))
  /\ line_by_line L content d !! "runtime"%string
    = Some (VStr (_extract_field L content (re_tag "runtime" true))).
Proof. repeat split; line_lookup. Qed.

Lemma line_by_line_lists content (d : dict) :
  (exists l, line_by_line L content d !! "genre"%string = Some (VList l))
  /\ (exists l, line_by_line L content d !! "actors"%string = Some (VList l)).
Proof. split; eexists; line_lookup. Qed.

Lemma line_by_line_other content (d : dict) (k : string) :
  ~ In k line_keys -> line_by_line L content d !! k = d !! k.
Proof.
  intros Hk. unfold line_keys in Hk. simpl in Hk.
  unfold line_by_line. cbv zeta.
  rewrite !lookup_insert_ne by (intros <-; tauto).
  destruct (PyStr.truthy _); [destruct (PyFloat.of_str L _) |];
    rewrite !lookup_insert_ne by (intros <-; tauto); reflexivity.
Qed.

Lemma line_by_line_typed content (d : dict) :
  (exists f, d !! "rating"%string = Some (VFloat f)) -> typed (line_by_line L content d).
Proof.
  intros [f Hf].
  destruct (line_by_line_text content d) as (H1 & H2 & H3 & H4 & H5 & _).
  destruct (line_by_line_lists content d) as (H6 & H7).
  unfold typed. repeat split; eauto.
  rewrite line_by_line_rating. cbv zeta.
  destruct (PyStr.truthy _); [destruct (PyFloat.of_str L _) |]; eauto.
Qed.

Lemma line_by_line_nonempty content (d : dict) : line_by_line L content d <> ∅.
Proof.
  intros H. destruct (line_by_line_text content d) as (H1 & _).
  rewrite H, lookup_empty in H1. discriminate.
Qed.

End LineByLine.

(** A typed record whose studio differs from the literal is accepted. *)
Lemma typed_with_studio_is_meaningful (defaults d : dict) (studio : pystr) :
  typed d -> d !! "studio"%string = Some (VStr studio) ->
  PyStr.strip studio <> Lit.unknown ->
  _has_meaningful_data defaults d = inr true.
Proof.
  intros ([t Ht] & _ & [r Hr] & [p Hp] & [f Hf] & [a Ha] & [g Hg] & [rd Hrd]) Hs Hne.
  unfold _has_meaningful_data, dict_get. rewrite Ht, Hs, Hr, Hp, Hf, Ha, Hg, Hrd.
  cbn [default py_strip py_gt_zero py_len ebind existsb id str_ne].
  unfold PyStr.eqb. rewrite bool_decide_eq_false_2 by exact Hne.
  cbn [negb orb]. rewrite orb_true_r. reflexivity.
Qed.

Ltac no_such_try :=
  cbn [with_log st_log st_data st_files fst];
  rewrite ?in_app_iff; cbn [In]; intuition discriminate.

(** ** Strategy 4 is reached only past a studio of '未知' *)

Section Reach.
Context (L : Library) (W : World) (defaults : dict) (nfo_path : string) (content : pystr).
Hypothesis readable : read_text W nfo_path = inr content.
Hypothesis studio_differs :
  PyStr.strip (_extract_field L content (re_tag "studio" true)) <> Lit.unknown.

Lemma from_round_3 (s : state) :
  typed (st_data s) -> ~ In (LogTry 4) (st_log s) ->
  exists s' r,
    try_parsers defaults 3 [_parse_line_by_line L W nfo_path; _parse_with_minidom W nfo_path] s
    = (s', inr r)
    /\ ~ In (LogTry 4) (st_log s').
Proof.
  intros Ht Hlog. destruct Ht as (_ & _ & _ & _ & Hf & _).
  rewrite try_parsers_cons, attempt_run, line_by_line_run, readable.
  cbn [st_data with_log].
  rewrite bool_decide_eq_false_2 by apply line_by_line_nonempty.
  destruct (line_by_line_text L content (st_data s)) as (_ & Hstudio & _).
  rewrite (typed_with_studio_is_meaningful defaults _ _
             (line_by_line_typed L content (st_data s) Hf) Hstudio studio_differs).
  eexists _, _. split; [reflexivity |]. no_such_try.
Qed.

Lemma from_round_2 (s : state) :
  typed (st_data s) -> ~ In (LogTry 4) (st_log s) ->
  exists s' r,
    try_parsers defaults 2
      [_parse_with_recovery L W nfo_path; _parse_line_by_line L W nfo_path;
       _parse_with_minidom W nfo_path] s
    = (s', inr r)
    /\ ~ In (LogTry 4) (st_log s').
Proof.
  intros Ht Hlog.
  rewrite try_parsers_cons, attempt_run, recovery_run, readable.
  destruct (scratch_create W) as [e | t];
    [apply from_round_3; [exact Ht | no_such_try] |].
  destruct (scratch_write W _); [| apply from_round_3; [exact Ht | no_such_try]].
  destruct (scratch_parse W _) as [e | root];
    [apply from_round_3; [exact Ht | no_such_try] |].
  cbn [st_data].
  rewrite bool_decide_eq_false_2 by apply extract_data_nonempty.
  destruct (_has_meaningful_data defaults _) as [e | [|]].
  - apply from_round_3; [apply extract_data_typed, Ht | no_such_try].
  - eexists _, _. split; [reflexivity |]. no_such_try.
  - apply from_round_3; [apply extract_data_typed, Ht | no_such_try].
Qed.

Lemma from_round_1 (s : state) :
  typed (st_data s) -> ~ In (LogTry 4) (st_log s) ->
  exists s' r,
    try_parsers defaults 1 (parsers L W nfo_path) s = (s', inr r)
    /\ ~ In (LogTry 4) (st_log s').
Proof.
  intros Ht Hlog. unfold parsers.
  rewrite try_parsers_cons, attempt_run, standard_xml_run.
  destruct (et_parse W nfo_path) as [e | root];
    [apply from_round_2; [exact Ht | no_such_try] |].
  cbn [st_data with_log].
  rewrite bool_decide_eq_false_2 by apply extract_data_nonempty.
  destruct (_has_meaningful_data defaults _) as [e | [|]].
  - apply from_round_2; [apply extract_data_typed, Ht | no_such_try].
  - eexists _, _. split; [reflexivity |]. no_such_try.
  - apply from_round_2; [apply extract_data_typed, Ht | no_such_try].
Qed.

End Reach.

(** X6: With typed defaults and a readable file, [parse_nfo] tries the
    minidom strategy only when the text gives the studio as '未知': when
    the first studio element of the text, cleaned, is anything else, or
    when the text has none, strategy 3 is accepted at the latest. *)
Theorem minidom_tried_only_past_default_studio
    (L : Library) (W : World) (defaults : dict) (nfo_path : string) (content : pystr) :
  defaults_typed defaults ->
  read_text W nfo_path = inr content ->
  PyStr.strip (_extract_field L content (re_tag "studio" true)) <> Lit.unknown ->
  ~ In (LogTry 4) (st_log (fst (parse_nfo L W defaults nfo_path start))).
Proof.
  intros Hdef Hread Hstudio.
  rewrite parse_nfo_run.
  destruct (from_round_1 L W defaults nfo_path content Hread Hstudio
              {| st_data := initial_data defaults; st_log := st_log start ++ [LogStart];
                 st_files := st_files start |})
    as (s' & r & -> & Hlog).
  - apply initial_data_typed, Hdef.
  - cbn. intuition discriminate.
  - destruct r; cbn [fst st_log]; [exact Hlog |].
    rewrite in_app_iff. cbn [In]. intuition discriminate.
Qed.

Lemma minidom_not_tried_sample :
  read_text Samples.title_only "movie.nfo" = inr Samples.title_only_text
  /\ ~ In (LogTry 4)
        (st_log (fst (parse_nfo plain_library Samples.title_only (init_defaults None)
                        "movie.nfo" start))).
Proof.
  split; [reflexivity |].
  apply (minidom_tried_only_past_default_studio plain_library Samples.title_only
           (init_defaults None) "movie.nfo" Samples.title_only_text).
  - repeat split; eexists; reflexivity.
  - reflexivity.
  - vm_compute. discriminate.
Defined.

(** ** The record of a file no XML parser accepts *)

(** X7: For a readable file that neither XML parser accepts, repaired or
    not, the record [parse_nfo] returns is what strategy 3 makes of the
    initial record, whether or not the check accepts it: title, studio,
    director, plot, release_date, series and runtime hold the cleaned
    first match of their pattern in the text, or the empty string where
    there is none; maker and publisher are at their defaults and there
    is no originaltitle entry. *)
Theorem unparsable_file_gives_the_line_extraction
    (L : Library) (W : World) (defaults : dict) (nfo_path : string)
    (content : pystr) (e2 e3 e4 : exn) :
  read_text W nfo_path = inr content ->
  et_parse W nfo_path = inl e2 ->
  minidom_parse W nfo_path = inl e3 ->
  scratch_parse W (_fix_xml_issues L content) = inl e4 ->
  exists s' d,
    parse_nfo L W defaults nfo_path start = (s', inr d)
    /\ d !! "title"%string = Some (VStr (_extract_field L content (re_tag "title" true)))
    /\ d !! "studio"%string = Some (VStr (_extract_field L content (re_tag "studio" true)))
    /\ d !! "director"%string = Some (VStr (_extract_field L content (re_tag "director" true)))
    /\ d !! "plot"%string = Some (VStr (_extract_field L content (re_tag "plot" true)))
    /\ d !! "release_date"%string
       = Some (VStr (_extract_field L content (re_tag "releasedate" true)))
    /\ d !! "series"%string = Some (VStr (_extract_field L content (re_tag "series" true)))
    /\ d !! "runtime"%string = Some (VStr (_extract_field L content (re_tag "runtime" true)))
    /\ d !! "maker"%string = Some (dict_get defaults "maker" (VStr Lit.unknown))
    /\ d !! "publisher"%string = Some (dict_get defaults "publisher" (VStr Lit.unknown))
    /\ d !! "originaltitle"%string = None.
Proof.
  intros Hread Het Hdom Hscratch.
  destruct (only_line_by_line_works L W defaults nfo_path content e2 e3 e4
              Hread Het Hdom Hscratch) as (s' & Hrun).
  exists s', (line_by_line L content (initial_data defaults)).
  split; [exact Hrun |].
  destruct (line_by_line_text L content (initial_data defaults))
    as (H1 & H2 & H3 & H4 & H5 & H6 & H7).
  repeat (split; [assumption |]).
  repeat split; (rewrite line_by_line_other; [reflexivity |]);
    unfold line_keys; cbn [In]; intuition discriminate.
Qed.

(** The empty file: every text field is the empty string, runtime
    included, and so are studio, director and plot. *)
Lemma unparsable_file_sample :
  exists s' d,
    parse_nfo plain_library Samples.empty (init_defaults None) "movie.nfo" start = (s', inr d)
    /\ d !! "title"%string = Some (VStr [])
    /\ d !! "studio"%string = Some (VStr [])
    /\ d !! "runtime"%string = Some (VStr [])
    /\ d !! "maker"%string = Some (VStr Lit.unknown).
Proof.
  destruct (unparsable_file_gives_the_line_extraction plain_library Samples.empty
              (init_defaults None) "movie.nfo" [] ParseError ParseError ParseError
              eq_refl eq_refl eq_refl eq_refl)
    as (s' & d & Hrun & Ht & Hs & _ & _ & _ & _ & Hr & Hm & _).
  exists s', d. repeat split; assumption.
Defined.

(** ** What the fallback strategies leave alone *)

Lemma minidom_field_other doc name (d : dict) (k : string) :
  k <> name -> minidom_field doc name d !! k = d !! k.
Proof.
  intros Hk. unfold minidom_field. destruct (List.find _ _); [| reflexivity].
  destruct (firstChild _); [| reflexivity].
  rewrite lookup_insert_ne; [reflexivity | congruence].
Qed.

(** X8: Strategy 3 assigns ten keys and strategy 4 three; whatever they are
    given and whether they end well or raise, every other entry of the
    record is as it was.  In particular neither writes maker, publisher
    or originaltitle, and strategy 4 writes neither rating nor actors. *)
Theorem fallback_strategies_leave_other_fields
    (L : Library) (W : World) (nfo_path : string) (d : dict) (k : string) :
  (~ In k line_keys -> effect (_parse_line_by_line L W nfo_path) d !! k = d !! k)
  /\ (~ In k minidom_keys -> effect (_parse_with_minidom W nfo_path) d !! k = d !! k).
Proof.
  unfold effect. split; intros Hk.
  - rewrite line_by_line_run. destruct (read_text W nfo_path); [reflexivity |].
    apply line_by_line_other. exact Hk.
  - rewrite minidom_run. destruct (minidom_parse W nfo_path); [reflexivity |].
    unfold minidom_keys in Hk. cbn [In] in Hk. cbn [fst st_data].
    rewrite !minidom_field_other by (intros ->; tauto). reflexivity.
Qed.

Lemma fallback_strategies_sample :
  effect (_parse_line_by_line plain_library Samples.maker "movie.nfo")
    (initial_data (init_defaults None)) !! "maker"%string = Some (VStr Lit.unknown)
  /\ effect (_parse_with_minidom Samples.nested "movie.nfo")
       (initial_data (init_defaults None)) !! "rating"%string = Some (VFloat 0%float).
Proof.
  split.
  - rewrite (proj1 (fallback_strategies_leave_other_fields plain_library Samples.maker
                      "movie.nfo" (initial_data (init_defaults None)) "maker"));
      [reflexivity | unfold line_keys; cbn [In]; intuition discriminate].
  - rewrite (proj2 (fallback_strategies_leave_other_fields plain_library Samples.nested
                      "movie.nfo" (initial_data (init_defaults None)) "rating"));
      [reflexivity | unfold minidom_keys; cbn [In]; intuition discriminate].
Defined.

(** ** The acceptance check, as the code has it *)

(** X9: On a record with values of the expected types the check raises
    nothing, and it accepts exactly when one of its eight tests holds:
    a title or release date that is not blank, a studio or director
    that, stripped, differs from the literal '未知', a plot that,
    stripped, differs from [self.defaults.get('plot', '')], a rating
    above zero, an actor, or a genre.  A title that is [None], as the
    minidom strategy can store it, makes the check raise
    AttributeError. *)
Theorem has_meaningful_data_on_typed_records
    (defaults d : dict) (title studio director plot release_date : pystr)
    (rating : float) (actors genre : list pystr) :
  d !! "title"%string = Some (VStr title) ->
  d !! "studio"%string = Some (VStr studio) ->
  d !! "director"%string = Some (VStr director) ->
  d !! "plot"%string = Some (VStr plot) ->
  d !! "rating"%string = Some (VFloat rating) ->
  d !! "actors"%string = Some (VList actors) ->
  d !! "genre"%string = Some (VList genre) ->
  d !! "release_date"%string = Some (VStr release_date) ->
  (exists accepted,
      _has_meaningful_data defaults d = inr accepted
      /\ (accepted = true <->
          PyStr.strip title <> []
          \/ PyStr.strip studio <> Lit.unknown
          \/ PyStr.strip director <> Lit.unknown
          \/ dict_get defaults "plot" (VStr []) <> VStr (PyStr.strip plot)
          \/ PyFloat.positive rating = true
          \/ actors <> []
          \/ genre <> []
          \/ PyStr.strip release_date <> []))
  /\ _has_meaningful_data defaults (<["title" := VNone]> d) = inl AttributeError.
Proof.
  intros Ht Hs Hd Hp Hr Ha Hg Hrd. split.
  - unfold _has_meaningful_data, dict_get. rewrite Ht, Hs, Hd, Hp, Hr, Ha, Hg, Hrd.
    cbn [default py_strip py_gt_zero py_len ebind existsb id].
    eexists. split; [reflexivity |]. cbn [existsb id].
    rewrite orb_false_r, !orb_true_iff.
    assert (Htruthy : forall s : pystr, PyStr.truthy s = true <-> s <> []).
    { intros [| c s]; simpl; split; congruence. }
    assert (Hne : forall s : pystr, str_ne s (VStr Lit.unknown) = true <-> s <> Lit.unknown).
    { intros s. unfold str_ne, PyStr.eqb. rewrite negb_true_iff, bool_decide_eq_false. tauto. }
    assert (Hplot : str_ne (PyStr.strip plot) (default (VStr []) (defaults !! "plot"%string)) = true
                    <-> default (VStr []) (defaults !! "plot"%string) <> VStr (PyStr.strip plot)).
    { destruct (default (VStr []) (defaults !! "plot"%string)) as [p | | |];
        cbn [str_ne]; try (split; [discriminate | reflexivity]).
      unfold PyStr.eqb. rewrite negb_true_iff, bool_decide_eq_false.
      split; congruence. }
    assert (Hlen : forall l : list pystr, (0 <? length l)%nat = true <-> l <> []).
    { intros [| x l]; unfold Nat.ltb; simpl; split; congruence. }
    rewrite !Htruthy, !Hne, Hplot, !Hlen. tauto.
  - unfold _has_meaningful_data, dict_get. rewrite lookup_insert_eq. reflexivity.
Qed.

Lemma has_meaningful_data_sample :
  exists accepted,
    _has_meaningful_data (init_defaults None) (initial_data (init_defaults None)) = inr accepted
    /\ accepted = false.
Proof.
  destruct (has_meaningful_data_on_typed_records (init_defaults None)
              (initial_data (init_defaults None)) [] Lit.unknown Lit.unknown Lit.no_plot []
              0%float [] [] eq_refl eq_refl eq_refl eq_refl eq_refl eq_refl eq_refl eq_refl)
    as [(accepted & Hrun & Hacc) _].
  exists accepted. split; [exact Hrun |].
  destruct accepted; [| reflexivity].
  exfalso. destruct (proj1 Hacc eq_refl) as [H | [H | [H | [H | [H | [H | [H | H]]]]]]];
    try (apply H; reflexivity); try discriminate.
Defined.

(** ** Whitespace in cleaned text *)

Lemma lstrip_length s : (length (PyStr.lstrip s) <= length s)%nat.
Proof.
  induction s as [| c s IH]; simpl; [lia |].
  destruct (PyStr.isspace c); simpl; lia.
Qed.

(** r'\s+' at a character: it matches when the character is white
    space, and then reads the whole run. *)
Lemma spaces_match_at c s :
  Re.match_at re_spaces (c :: s)
  = if PyStr.isspace c then Some ((None, None), PyStr.lstrip s) else None.
Proof.
  unfold Re.match_at, re_spaces. cbn [Re.m].
  destruct (PyStr.isspace c); [| reflexivity].
  induction s as [| x s IH]; [reflexivity |].
  cbn [PyStr.lstrip]. destruct (PyStr.isspace x); [| reflexivity].
  rewrite IH. reflexivity.
Qed.

Lemma collapse_spaces_chars : forall s skip c,
  In c (Re.sub_from re_spaces (PyStr.lit " ") skip s) ->
  PyStr.isspace c = true -> c = 0x20.
Proof.
  induction s as [| x s IH]; intros skip c Hc Hsp.
  - destruct skip; simpl in Hc; contradiction.
  - destruct skip as [| k]; cbn [Re.sub_from] in Hc; [| eapply IH; eassumption].
    rewrite spaces_match_at in Hc.
    destruct (PyStr.isspace x) eqn:Hx.
    + unfold Re.consumed in Hc. pose proof (lstrip_length s) as Hlen.
      cbn [length] in Hc.
      destruct (S (length s) - length (PyStr.lstrip s))%nat as [| k] eqn:Hk; [lia |].
      apply in_app_or in Hc. destruct Hc as [Hc | Hc]; [| eapply IH; eassumption].
      vm_compute in Hc. destruct Hc as [<- | []]. reflexivity.
    + destruct Hc as [<- | Hc]; [congruence | eapply IH; eassumption].
Qed.

Lemma lstrip_head s c t : PyStr.lstrip s = c :: t -> PyStr.isspace c = false.
Proof.
  induction s as [| x s IH]; simpl; [discriminate |].
  destruct (PyStr.isspace x) eqn:Hx; [exact IH |].
  intros [= <- <-]. exact Hx.
Qed.

(** What [lstrip] drops is white space, and it drops nothing from text
    that does not start with white space. *)
Lemma lstrip_split s : exists w, s = w ++ PyStr.lstrip s /\ Forall (fun c => PyStr.isspace c = true) w.
Proof.
  induction s as [| x s (w & Hw & Hall)]; [exists []; split; [reflexivity | constructor] |].
  simpl. destruct (PyStr.isspace x) eqn:Hx.
  - exists (x :: w). split; [simpl; congruence | constructor; assumption].
  - exists []. split; [reflexivity | constructor].
Qed.

Lemma strip_ends s :
  (forall c t, PyStr.strip s = c :: t -> PyStr.isspace c = false)
  /\ (forall c t, PyStr.strip s = t ++ [c] -> PyStr.isspace c = false).
Proof.
  unfold PyStr.strip, PyStr.rstrip. set (u := PyStr.lstrip s).
  split.
  - intros c t H.
    destruct (lstrip_split (rev u)) as (w & Hw & Hall).
    assert (Hu : u = rev (PyStr.lstrip (rev u)) ++ rev w).
    { rewrite <- rev_app_distr, <- Hw, rev_involutive. reflexivity. }
    rewrite H in Hu. simpl in Hu. eapply (lstrip_head s c). fold u. exact Hu.
  - intros c t H.
    apply (f_equal (@rev N)) in H. rewrite rev_involutive, rev_app_distr in H. simpl in H.
    eapply lstrip_head. exact H.
Qed.


Lemma spaced_tail c t : spaced (c :: t) -> spaced t.
Proof. inversion 1; subst; [constructor | assumption]. Qed.

Lemma spaced_suffix w t : spaced (w ++ t) -> spaced t.
Proof. induction w as [| c w IH]; [trivial |]. intros H. apply IH. eapply spaced_tail, H. Qed.

Lemma spaced_prefix t : forall w, spaced (t ++ w) -> spaced t.
Proof.
  induction t as [| a t IH]; intros w H; [constructor |].
  destruct t as [| b t]; [constructor |].
  simpl in H. inversion H; subst.
  constructor; [assumption |]. eapply IH. simpl. eassumption.
Qed.

Lemma sub_from_skip r repl : forall k s,
  Re.sub_from r repl k s = Re.sub_from r repl 0 (drop k s).
Proof.
  induction k as [| k IH]; intros s; [rewrite drop_0; reflexivity |].
  destruct s as [| c s]; [reflexivity |]. simpl. apply IH.
Qed.

Lemma drop_to_lstrip s : drop (length s - length (PyStr.lstrip s)) s = PyStr.lstrip s.
Proof.
  destruct (lstrip_split s) as (w & Hw & _).
  assert (Hlen : (length s - length (PyStr.lstrip s))%nat = length w).
  { rewrite Hw at 1. rewrite length_app. lia. }
  rewrite Hlen. rewrite Hw at 1. apply drop_app_length.
Qed.

(** r'\s+' replaced by a blank, one step. *)
Lemma collapse_spaces_step c s :
  Re.sub_from re_spaces (PyStr.lit " ") 0 (c :: s)
  = if PyStr.isspace c
    then 0x20 :: Re.sub_from re_spaces (PyStr.lit " ") 0 (PyStr.lstrip s)
    else c :: Re.sub_from re_spaces (PyStr.lit " ") 0 s.
Proof.
  cbn [Re.sub_from]. rewrite spaces_match_at.
  destruct (PyStr.isspace c); [| reflexivity].
  unfold Re.consumed. cbn [length]. pose proof (lstrip_length s) as Hlen.
  replace (S (length s) - length (PyStr.lstrip s))%nat
    with (S (length s - length (PyStr.lstrip s))) by lia.
  rewrite sub_from_skip, drop_to_lstrip. reflexivity.
Qed.

Lemma collapse_spaces_spaced : forall n s,
  (length s <= n)%nat -> spaced (Re.sub_from re_spaces (PyStr.lit " ") 0 s).
Proof.
  induction n as [| n IH]; intros s Hn.
  - destruct s; [constructor | simpl in Hn; lia].
  - destruct s as [| c s]; [constructor |].
    simpl in Hn. rewrite collapse_spaces_step.
    destruct (PyStr.isspace c) eqn:Hc.
    + pose proof (lstrip_length s) as Hlen.
      assert (Hrec := IH (PyStr.lstrip s) ltac:(lia)).
      destruct (PyStr.lstrip s) as [| x t] eqn:Hl; [constructor |].
      pose proof (lstrip_head s x t Hl) as Hx.
      rewrite collapse_spaces_step, Hx in Hrec |- *.
      constructor; [right; exact Hx | exact Hrec].
    + assert (Hrec := IH s ltac:(lia)).
      destruct (Re.sub_from re_spaces (PyStr.lit " ") 0 s) as [| b t]; [constructor |].
      constructor; [left; exact Hc | exact Hrec].
Qed.

Lemma strip_spaced s : spaced s -> spaced (PyStr.strip s).
Proof.
  intros H. unfold PyStr.strip, PyStr.rstrip.
  destruct (lstrip_split s) as (w & Hw & _).
  assert (Hu : spaced (PyStr.lstrip s)) by (eapply spaced_suffix; rewrite <- Hw; exact H).
  destruct (lstrip_split (rev (PyStr.lstrip s))) as (w' & Hw' & _).
  apply (f_equal (@rev N)) in Hw'. rewrite rev_involutive, rev_app_distr in Hw'.
  eapply spaced_prefix. rewrite <- Hw'. exact Hu.
Qed.

(** X4: When [html.unescape] returns on the text, white space occurs in
    the cleaned text only as single blanks between other characters:
    every white-space character is the blank U+0020, no two neighbours
    are both white space, and the text neither starts nor ends with
    white space.  Whether or not it returns, the cleaned text neither
    starts nor ends with white space. *)
Theorem clean_text_white_space_is_single_blanks (L : Library) (text : pystr) :
  (html_unescape L text <> None ->
   (forall c, In c (_clean_text L text) -> PyStr.isspace c = true -> c = 0x20)
   /\ spaced (_clean_text L text))
  /\ (forall c t, _clean_text L text = c :: t -> PyStr.isspace c = false)
  /\ (forall c t, _clean_text L text = t ++ [c] -> PyStr.isspace c = false).
Proof.
  unfold _clean_text. destruct (PyStr.truthy text).
  - cbn [negb]. destruct (html_unescape L text) as [unescaped |].
    + split; [| apply strip_ends]. intros _. split.
      * intros c Hc Hsp. apply strip_chars in Hc.
        eapply collapse_spaces_chars; eassumption.
      * apply strip_spaced. eapply collapse_spaces_spaced. reflexivity.
    + split; [intros H; contradiction | apply strip_ends].
  - cbn [negb]. split; [intros _; split; [intros c [] | constructor] |].
    split; intros c t H; [discriminate |]. destruct t; discriminate.
Qed.

(** Blanks, a TAB and a newline between two letters come out as one
    blank. *)
Lemma clean_text_spaces_sample :
  _clean_text plain_library (PyStr.lit "  a " ++ [0x09; 0x0A] ++ PyStr.lit " b ") = PyStr.lit "a b"
  /\ spaced (_clean_text plain_library (PyStr.lit "  a " ++ [0x09; 0x0A] ++ PyStr.lit " b ")).
Proof.
  split; [vm_compute; reflexivity |].
  apply (proj1 (clean_text_white_space_is_single_blanks plain_library
                  (PyStr.lit "  a " ++ [0x09; 0x0A] ++ PyStr.lit " b "))).
  vm_compute. discriminate.
Defined.

(** ** Repaired text *)

(** Removing the characters of one class. *)
Lemma sub_class_removed p : forall s skip,
  Re.sub_from [Re.Ch p] [] skip s = List.filter (fun c => negb (p c)) (drop skip s).
Proof.
  induction s as [| c s IH]; intros skip.
  - destruct skip; reflexivity.
  - destruct skip as [| k]; [| simpl; apply IH].
    cbn [Re.sub_from]. unfold Re.match_at. cbn [Re.m drop List.filter].
    destruct (p c); cbn [negb].
    + unfold Re.consumed. cbn [length].
      replace (S (length s) - length s)%nat with 1%nat by lia.
      rewrite IH. reflexivity.
    + rewrite IH. reflexivity.
Qed.

Section Ampersands.
Context (L : Library).

(** The second substitution, one step. *)
Lemma escape_step c s :
  Re.sub_from (re_bare_ampersand L) (PyStr.lit "&amp;") 0 (c :: s)
  = if (0x26 =? c) && negb (entity_follows L s)
    then PyStr.lit "&amp;" ++ Re.sub_from (re_bare_ampersand L) (PyStr.lit "&amp;") 0 s
    else c :: Re.sub_from (re_bare_ampersand L) (PyStr.lit "&amp;") 0 s.
Proof.
  cbn [Re.sub_from]. unfold Re.match_at, re_bare_ampersand. cbn [Re.m]. unfold Re.only.
  destruct (0x26 =? c); cbn [andb]; [| reflexivity].
  destruct (entity_follows L s); cbn [negb]; [reflexivity |].
  unfold Re.consumed. cbn [length].
  replace (S (length s) - length s)%nat with 1%nat by lia. reflexivity.
Qed.

Lemma escape_nil : escape L [] = [].
Proof. reflexivity. Qed.

Lemma escape_cons c s :
  escape L (c :: s)
  = if (0x26 =? c) && negb (entity_follows L s)
    then PyStr.lit "&amp;" ++ escape L s
    else c :: escape L s.
Proof. apply escape_step. Qed.

Lemma escape_head_kept p c s : p 0x26 = false -> p c = true -> escape L (c :: s) = c :: escape L s.
Proof.
  intros Hp Hc. rewrite escape_cons.
  destruct (N.eqb_spec 0x26 c) as [<- | _]; [congruence | reflexivity].
Qed.

Lemma escape_head_rejected p s :
  p 0x26 = false ->
  match s with c :: _ => p c = false | [] => True end ->
  match escape L s with c :: _ => p c = false | [] => True end.
Proof.
  intros Hp. destruct s as [| c s]; [trivial |]. intros Hc. rewrite escape_cons.
  destruct ((0x26 =? c) && negb (entity_follows L s)); [exact Hp | exact Hc].
Qed.

(** A pattern of such atoms that matches some text matches the escaped
    text as well. *)
Lemma plain_match_survives r : Forall plain_atom r ->
  forall s g, is_Some (Re.m r s g) -> is_Some (Re.m r (escape L s) g).
Proof.
  induction 1 as [| a r Ha _ IH]; intros s g Hm; [cbn; eauto |].
  destruct Ha as [p Hp | p Hp].
  - destruct s as [| c s]; cbn [Re.m] in Hm; [destruct Hm; discriminate |].
    destruct (p c) eqn:Hc; [| destruct Hm; discriminate].
    rewrite (escape_head_kept p c s Hp Hc). cbn [Re.m]. rewrite Hc. apply IH, Hm.
  - cbn [Re.m] in Hm |- *.
    revert Hm. induction s as [| c s IHs]; intros Hm.
    + rewrite escape_nil. apply (IH [] g). exact Hm.
    + destruct (p c) eqn:Hc.
      * rewrite (escape_head_kept p c s Hp Hc). rewrite Hc.
        match type of Hm with
        | is_Some (match ?star with _ => _ end) => destruct star eqn:Hstar
        end.
        -- destruct (IHs ltac:(eauto)) as [y Hy]. rewrite Hy. eauto.
        -- match goal with
           | |- is_Some (match ?star' with _ => _ end) => destruct star'; [eauto |]
           end.
           rewrite <- (escape_head_kept p c s Hp Hc). apply IH, Hm.
      * pose proof (escape_head_rejected p (c :: s) Hp Hc) as Hrej.
        destruct (escape L (c :: s)) as [| x t] eqn:He.
        -- rewrite <- He. apply IH, Hm.
        -- rewrite Hrej. rewrite <- He. apply IH, Hm.
Qed.

End Ampersands.

Section Repair.
Context (L : Library).
Hypothesis ampersand_no_digit : ucd_digit_beyond_ascii L 0x26 = false.

Lemma entity_survives s : entity_follows L s = true -> entity_follows L (escape L s) = true.
Proof.
  unfold entity_follows. rewrite !existsb_exists.
  intros (alt & Hin & Hm). exists alt. split; [exact Hin |].
  unfold Re.matches_at, Re.match_at in *.
  assert (Hplain : Forall (plain_atom) alt).
  { assert (Hd : re_digit L 0x26 = false) by (unfold re_digit; rewrite ampersand_no_digit; reflexivity).
    simpl in Hin.
    repeat (destruct Hin as [<- | Hin];
            [repeat constructor; first [exact Hd | reflexivity] |]).
    contradiction. }
  destruct (Re.m alt s (None, None)) eqn:Hs; [| discriminate].
  destruct (plain_match_survives L alt Hplain s (None, None)) as [y Hy]; [rewrite Hs; eauto |].
  rewrite Hy. reflexivity.
Qed.

Lemma escape_references_only s : references_only L (escape L s) = true.
Proof.
  induction s as [| c s IH]; [reflexivity |].
  rewrite escape_cons.
  destruct (N.eqb_spec 0x26 c) as [<- | Hc]; cbn [andb].
  - destruct (entity_follows L s) eqn:He; cbn [negb].
    + cbn [references_only]. rewrite N.eqb_refl, (entity_survives s He), IH. reflexivity.
    + change (PyStr.lit "&amp;" ++ escape L s)
        with (0x26 :: 0x61 :: 0x6D :: 0x70 :: 0x3B :: escape L s).
      cbn [references_only]. rewrite IH.
      change (0x26 =? 0x26) with true. change (0x26 =? 0x61) with false.
      change (0x26 =? 0x6D) with false. change (0x26 =? 0x70) with false.
      change (0x26 =? 0x3B) with false. cbn [andb].
      rewrite andb_true_r. reflexivity.
  - cbn [references_only]. destruct (N.eqb_spec 0x26 c); [contradiction |]. exact IH.
Qed.

Lemma references_only_spec s :
  references_only L s = true ->
  forall w t, s = w ++ 0x26 :: t -> entity_follows L t = true.
Proof.
  intros H w. revert s H. induction w as [| x w IH]; intros s H t ->.
  - simpl in H. apply andb_true_iff in H. destruct H as [H _]. exact H.
  - simpl in H. apply andb_true_iff in H. destruct H as [_ H]. eapply IH; [exact H | reflexivity].
Qed.

Lemma escape_fixed s : references_only L s = true -> escape L s = s.
Proof.
  induction s as [| c s IH]; [reflexivity |].
  cbn [references_only]. intros H. apply andb_true_iff in H. destruct H as [Hc Hs].
  rewrite escape_cons, (IH Hs).
  destruct (0x26 =? c); [rewrite Hc |]; reflexivity.
Qed.

Lemma fix_xml_unfold s :
  _fix_xml_issues L s = escape L (List.filter (fun c => negb (xml_invalid c)) s).
Proof.
  unfold _fix_xml_issues, escape, Re.sub. rewrite sub_class_removed, drop_0. reflexivity.
Qed.

Lemma escape_chars s c : In c (escape L s) -> In c s \/ In c (PyStr.lit "&amp;").
Proof. apply sub_from_chars. Qed.

Lemma filter_all {A} (f : A -> bool) (l : list A) :
  (forall x, In x l -> f x = true) -> List.filter f l = l.
Proof.
  induction l as [| a l IH]; intros H; [reflexivity |].
  simpl. rewrite (H a) by (left; reflexivity). f_equal. apply IH. intros; apply H; right; assumption.
Qed.

Lemma fix_xml_no_invalid s c : In c (_fix_xml_issues L s) -> xml_invalid c = false.
Proof.
  rewrite fix_xml_unfold. intros Hc. apply escape_chars in Hc. destruct Hc as [Hc | Hc].
  - apply List.filter_In in Hc. destruct Hc as [_ Hc]. apply negb_true_iff in Hc. exact Hc.
  - vm_compute in Hc.
    repeat (destruct Hc as [<- | Hc]; [reflexivity |]). contradiction.
Qed.

End Repair.

(** X5: [_fix_xml_issues] gives text that needs no repair: it holds none of
    the control characters the pattern names, each of its ampersands is
    followed by amp, lt, gt, quot, apos or a numeric reference and a
    semicolon, and repairing it again changes nothing.  The Unicode
    database is taken not to class the ampersand as a digit. *)
Theorem fix_xml_issues_output_is_repaired (L : Library) (content : pystr) :
  ucd_digit_beyond_ascii L 0x26 = false ->
  (forall c, In c (_fix_xml_issues L content) -> xml_invalid c = false)
  /\ (forall w t, _fix_xml_issues L content = w ++ 0x26 :: t -> entity_follows L t = true)
  /\ _fix_xml_issues L (_fix_xml_issues L content) = _fix_xml_issues L content.
Proof.
  intros Hd. split; [intros c; apply fix_xml_no_invalid |]. split.
  - apply references_only_spec. rewrite fix_xml_unfold. apply escape_references_only. exact Hd.
  - rewrite (fix_xml_unfold L (_fix_xml_issues L content)).
    rewrite filter_all.
    + apply escape_fixed. rewrite fix_xml_unfold. apply escape_references_only. exact Hd.
    + intros c Hc. rewrite (fix_xml_no_invalid L content c Hc). reflexivity.
Qed.

Lemma fix_xml_issues_sample :
  _fix_xml_issues plain_library (PyStr.lit "A & B &lt; &#38; &copy; C" ++ [0x01])
  = PyStr.lit "A &amp; B &lt; &#38; &amp;copy; C"
  /\ _fix_xml_issues plain_library (PyStr.lit "A &amp; B &lt; &#38; &amp;copy; C")
     = PyStr.lit "A &amp; B &lt; &#38; &amp;copy; C".
Proof.
  split; [vm_compute; reflexivity |].
  destruct (fix_xml_issues_output_is_repaired plain_library
              (PyStr.lit "A & B &lt; &#38; &copy; C" ++ [0x01]) eq_refl) as (_ & _ & H).
  revert H. vm_compute. intros H. exact H.
Defined.

Module PyConfigFacts.
Import PyConfig.

Lemma split_dots_nonempty s : split_dots s <> [].
Proof.
  destruct s as [| c s]; simpl; [discriminate |].
  destruct (Ascii.eqb c "."); [discriminate |]. destruct (split_dots s); discriminate.
Qed.

Lemma split_dots_plain a : plain_key a = true -> split_dots a = [a].
Proof.
  induction a as [| c a IH]; [reflexivity |].
  simpl. intros H. apply andb_true_iff in H. destruct H as [Hc Ha].
  apply negb_true_iff in Hc. rewrite Hc, (IH Ha). reflexivity.
Qed.

Lemma split_dots_path a b :
  plain_key a = true -> split_dots (a ++ "." ++ b) = a :: split_dots b.
Proof.
  induction a as [| c a IH]; [reflexivity |].
  simpl. intros H. apply andb_true_iff in H. destruct H as [Hc Ha].
  apply negb_true_iff in Hc. rewrite Hc. rewrite (IH Ha). reflexivity.
Qed.

Lemma split_dots_joined s : String.concat "." (split_dots s) = s.
Proof.
  induction s as [| c s IH]; [reflexivity |].
  cbn [split_dots]. destruct (Ascii.eqb_spec c ".") as [-> | Hc].
  - pose proof (split_dots_nonempty s) as Hne.
    cbn [String.concat]. destruct (split_dots s) as [| k ks] eqn:Hs; [contradiction |].
    rewrite IH. reflexivity.
  - pose proof (split_dots_nonempty s) as Hne.
    destruct (split_dots s) as [| k ks] eqn:Hs; [contradiction |].
    destruct ks as [| k' ks]; cbn [String.concat] in IH |- *.
    + rewrite IH. reflexivity.
    + simpl. rewrite <- IH. reflexivity.
Qed.

End PyConfigFacts.

(** X10: [Config.get] follows a dotted path one mapping at a time: a path
    a.b looks a up in the mapping and goes on with b in what it finds; a
    key without dots is looked up as it is; and where the path leaves
    the mappings, through a missing key or through a value that is no
    mapping, the result is the default.  The keys of a path are its
    pieces between the dots: joined by dots they give the path back. *)
Theorem config_get_follows_the_dotted_path
    (cfg : config) (a b : string) (dflt : config) :
  PyConfig.plain_key a = true ->
  PyConfig.get cfg (a ++ "." ++ b) dflt
  = match cfg with
    | Dict entries =>
        match entries !! a with
        | Some v => PyConfig.get v b dflt
        | None => dflt
        end
    | _ => dflt
    end
  /\ PyConfig.get cfg a dflt
     = match cfg with
       | Dict entries => default dflt (entries !! a)
       | _ => dflt
       end
  /\ (forall key_path, String.concat "." (PyConfig.split_dots key_path) = key_path).
Proof.
  intros Ha. unfold PyConfig.get. split; [| split].
  - rewrite (PyConfigFacts.split_dots_path a b Ha).
    cbn [PyConfig.walk]. destruct cfg; try reflexivity. destruct (entries !! a); reflexivity.
  - rewrite (PyConfigFacts.split_dots_plain a Ha).
    cbn [PyConfig.walk]. destruct cfg; try reflexivity. destruct (entries !! a); reflexivity.
  - apply PyConfigFacts.split_dots_joined.
Qed.

Lemma config_get_sample :
  PyConfig.get PyConfig.get_default_config "advanced.log_level" (Str (PyStr.lit "INFO"))
  = PyConfig.get (Dict (list_to_map [ ("log_level", Str (PyStr.lit "INFO")) ]))
      "log_level" (Str (PyStr.lit "INFO")).
Proof.
  destruct (config_get_follows_the_dotted_path PyConfig.get_default_config
              "advanced" "log_level" (Str (PyStr.lit "INFO")) eq_refl) as (H & _).
  refine (eq_trans H _). vm_compute. reflexivity.
Defined.

(** X11: A parser made from the built-in default configuration, from a
    configuration file that is empty (YAML null) or holds a scalar, or
    from a configuration with no nfo_parsing mapping or with one that
    has no defaults entry, gets the literal defaults: rating 0.0, studio
    and director '未知', plot '暂无该部分信息'. *)
Theorem parser_defaults_fall_back_to_the_literal :
  parser_defaults PyConfig.get_default_config = literal_defaults
  /\ parser_defaults Null = literal_defaults
  /\ (forall s, parser_defaults (Str s) = literal_defaults)
  /\ (forall entries : gmap string config,
        entries !! "nfo_parsing"%string = None ->
        parser_defaults (Dict entries) = literal_defaults)
  /\ (forall entries section : gmap string config,
        entries !! "nfo_parsing"%string = Some (Dict section) ->
        section !! "defaults"%string = None ->
        parser_defaults (Dict entries) = literal_defaults).
Proof.
  split; [vm_compute; reflexivity |]. split; [reflexivity |]. split; [reflexivity |].
  split.
  - intros entries H. unfold parser_defaults, PyConfig.get.
    change (PyConfig.split_dots "nfo_parsing.defaults")
      with ["nfo_parsing"; "defaults"]%string.
    cbn [PyConfig.walk]. rewrite H. reflexivity.
  - intros entries section H1 H2. unfold parser_defaults, PyConfig.get.
    change (PyConfig.split_dots "nfo_parsing.defaults")
      with ["nfo_parsing"; "defaults"]%string.
    cbn [PyConfig.walk]. rewrite H1, H2. reflexivity.
Qed.


Section Year.
Context (L : Library).





End Year.



Lemma markdown_escape_cons c s :
  Markdown.escape (c :: s)
  = (if c =? 0x5C then [0x5C; 0x5C] else if c =? 0x22 then [0x5C; 0x22] else [c])
    ++ Markdown.escape s.
Proof.
  unfold Markdown.escape, Markdown.replace_char. cbn [flat_map].
  rewrite flat_map_app.
  destruct (N.eqb_spec c 0x5C) as [-> | H5]; [reflexivity |].
  cbn [flat_map]. destruct (c =? 0x22); reflexivity.
Qed.

(** X13: The escaping of [_format_actors] loses nothing: reading the
    backslashes back gives the name, so two names with the same escaped
    text are the same name.  In the escaped text every double quote has
    a backslash before it. *)
Theorem format_actors_escaping_is_lossless :
  (forall actor, Markdown.unescape (Markdown.escape actor) = actor)
  /\ (forall a b, Markdown.escape a = Markdown.escape b -> a = b)
  /\ (forall actor w t, Markdown.escape actor = w ++ 0x22 :: t ->
                        exists w', w = w' ++ [0x5C]).
Proof.
  assert (Hround : forall actor, Markdown.unescape (Markdown.escape actor) = actor).
  { induction actor as [| c s IH]; [reflexivity |].
    rewrite markdown_escape_cons.
    destruct (N.eqb_spec c 0x5C) as [-> | H5]; [simpl; rewrite IH; reflexivity |].
    destruct (N.eqb_spec c 0x22) as [-> | H2]; [simpl; rewrite IH; reflexivity |].
    cbn [app Markdown.unescape].
    destruct (N.eqb_spec c 0x5C); [contradiction |]. rewrite IH. reflexivity. }
  split; [exact Hround |]. split.
  - intros a b H. rewrite <- (Hround a), <- (Hround b), H. reflexivity.
  - induction actor as [| c s IH]; intros w t H.
    + destruct w; discriminate.
    + rewrite markdown_escape_cons in H.
      destruct (N.eqb_spec c 0x5C) as [-> | H5].
      * destruct w as [| x [| y w]]; try discriminate.
        cbn [app] in H. injection H as <- <- H.
        destruct (IH w t H) as [w' ->]. exists (0x5C :: 0x5C :: w'). reflexivity.
      * destruct (N.eqb_spec c 0x22) as [-> | H2].
        -- destruct w as [| x [| y w]]; try discriminate.
           ++ cbn [app] in H. injection H as <- _. exists []. reflexivity.
           ++ cbn [app] in H. injection H as <- <- H.
              destruct (IH w t H) as [w' ->]. exists (0x5C :: 0x22 :: w'). reflexivity.
        -- destruct w as [| x w]; cbn [app] in H.
           ++ injection H as -> _. contradiction.
           ++ injection H as <- H. destruct (IH w t H) as [w' ->].
              exists (c :: w'). reflexivity.
Qed.

(** ** Samples for the properties above *)

(** The sample film has no studio element: extraction leaves the
    studio of the record as it was. *)
Lemma extraction_keeps_sample :
  extract_data plain_library Samples.film_tree (initial_data (init_defaults None))
    !! "studio"%string = Some (VStr Lit.unknown).
Proof.
  destruct (extraction_keeps_what_it_does_not_find plain_library Samples.film
              (init_defaults None) "movie.nfo" Samples.film_tree
              (initial_data (init_defaults None))) as [H _].
  rewrite (H "studio"%string); [reflexivity | | reflexivity].
  unfold fields. cbn [map fst In]. tauto.
Defined.

(** A configuration that is an empty mapping. *)
Lemma parser_defaults_sample : parser_defaults (Dict ∅) = literal_defaults.
Proof.
  destruct parser_defaults_fall_back_to_the_literal as (_ & _ & _ & H & _).
  apply H. apply lookup_empty.
Defined.
